(** * Agentic-SQL: the provider-failover client and the agent state machine

    A shallow embedding of [backend/llm_client.py] and [backend/sql_agent.py].

    Conventions of the embedding.
    - Python [str] values are [string]s over the ASCII range; [strip],
      [upper], [startswith], [in], [split] and [join] are written out below.
    - A Python exception is a value of [exn]; a computation that may raise
      returns a [result].
    - The two text-generation backends are outside the program.  A backend is
      a function from the number of the logical client call to what the SDK
      call does on that call: it returns a message or it raises.  Quantifying
      over these functions quantifies over every behaviour of the providers.
    - [sqlparse.parse] and [json.loads] are library functions and are taken
      as parameters of the agent (record [Libs]).
    - [print] calls and prompt construction have no effect on the state and
      are left out. *)

From Stdlib Require Import String Ascii List Bool Arith ZArith QArith Lia Permutation.
From Stdlib Require Import Qround DecimalString.
Import ListNotations.
Close Scope Q_scope.
Open Scope string_scope.
Open Scope nat_scope.
Open Scope list_scope.

(** ** Python values used by the code *)

Module Py.

Inductive exn : Type :=
| ValueError (msg : string)
| APIError (msg : string)          (* whatever a backend SDK raises *)
| KeyError (key : string)         (* the repr of the key *)
| TypeError (msg : string)
| AttributeError (msg : string).

(** [str(e)] *)
Definition exn_str (e : exn) : string :=
  match e with
  | ValueError m | APIError m | KeyError m | TypeError m | AttributeError m => m
  end.

Inductive result (A : Type) : Type :=
| Ok (a : A)
| Raise (e : exn).
Arguments Ok {A} a.
Arguments Raise {A} e.

Definition bind {A B} (r : result A) (k : A -> result B) : result B :=
  match r with
  | Ok a => k a
  | Raise e => Raise e
  end.

(** [str.isspace] on one ASCII character. *)
Definition isspace (c : ascii) : bool :=
  let n := nat_of_ascii c in
  ((9 <=? n) && (n <=? 13)) || ((28 <=? n) && (n <=? 32)).

Fixpoint lstrip (s : string) : string :=
  match s with
  | String c s' => if isspace c then lstrip s' else s
  | EmptyString => EmptyString
  end.

Fixpoint rstrip (s : string) : string :=
  match s with
  | EmptyString => EmptyString
  | String c s' =>
      match rstrip s' with
      | EmptyString => if isspace c then EmptyString else String c EmptyString
      | r => String c r
      end
  end.

Definition strip (s : string) : string := rstrip (lstrip s).

Definition upper_char (c : ascii) : ascii :=
  let n := nat_of_ascii c in
  if (97 <=? n) && (n <=? 122) then ascii_of_nat (n - 32) else c.

Fixpoint upper (s : string) : string :=
  match s with
  | EmptyString => EmptyString
  | String c s' => String (upper_char c) (upper s')
  end.

(** [s.startswith(p)] *)
Definition startswith (s p : string) : bool := String.prefix p s.

(** [sub in s] *)
Fixpoint contains (sub s : string) : bool :=
  String.prefix sub s ||
  match s with
  | EmptyString => false
  | String _ s' => contains sub s'
  end.

(** [s[n:]] *)
Fixpoint drop (n : nat) (s : string) : string :=
  match n, s with
  | O, _ => s
  | S n', String _ s' => drop n' s'
  | S _, EmptyString => EmptyString
  end.

(** [s.split("\n")]: never empty, one more piece than there are newlines. *)
Definition newline : ascii := ascii_of_nat 10.

Fixpoint split_lines (s : string) : list string :=
  match s with
  | EmptyString => [EmptyString]
  | String c s' =>
      if Ascii.eqb c newline then EmptyString :: split_lines s'
      else match split_lines s' with
           | l :: ls => String c l :: ls
           | [] => [String c EmptyString]
           end
  end.

(** ["\n".join(ls)] *)
Fixpoint join_lines (ls : list string) : string :=
  match ls with
  | [] => EmptyString
  | [l] => l
  | l :: ls' => (l ++ String newline (join_lines ls'))%string
  end.

(** Truthiness of a [str] and of an [Optional[str]]. *)
Definition truthy_str (s : string) : bool :=
  match s with EmptyString => false | _ => true end.

Definition truthy_opt (o : option string) : bool :=
  match o with Some s => truthy_str s | None => false end.

(** A method call [x.strip()] on a value that may be [None]. *)
Definition strip_method (o : option string) : result string :=
  match o with
  | Some s => Ok (strip s)
  | None => Raise (AttributeError "'NoneType' object has no attribute 'strip'")
  end.

End Py.
Import Py.

(** ** llm_client.py *)

Module LLMClient.

Record tool_call : Type := {
  tc_id : string;
  tc_name : string;            (* tc.function.name *)
  tc_arguments : string        (* tc.function.arguments, raw text *)
}.

(** [response.choices[0].message] of either SDK. *)
Record message : Type := {
  content : option string;
  tool_calls : list tool_call
}.

Inductive backend : Type := Primary | Mistral.

(** What a backend does on the [n]-th logical call of the client. *)
Definition endpoint : Type := nat -> result message.

(** The singleton built by [_initialize]: a backend without credentials is
    [None]. *)
Record client : Type := {
  primary_client : option endpoint;
  mistral_api_key : option endpoint
}.

(** The uniform dict returned by [generate_with_tools]. *)
Record tool_response : Type := {
  resp_content : option string;
  resp_tool_calls : list tool_call
}.

Definition to_response (m : message) : tool_response :=
  {| resp_content := content m; resp_tool_calls := tool_calls m |}.

Definition both_failed_msg : string :=
  "Both primary and fallback LLM models failed or are not configured.".

(** [LLMClient.generate], together with the backends it attempted, in
    order.  A failure of the primary is printed and dropped; a failure of
    the fallback is re-raised as it is. *)
Definition generate_log (c : client) (n : nat)
  : list backend * result (option string) :=
  let try_primary :=
    match primary_client c with
    | Some p =>
        match p n with
        | Ok m => ([Primary], Some (content m))
        | Raise _ => ([Primary], None)
        end
    | None => ([], None)
    end in
  match try_primary with
  | (log, Some text) => (log, Ok text)
  | (log, None) =>
      match mistral_api_key c with
      | Some f =>
          match f n with
          | Ok m => (log ++ [Mistral], Ok (content m))
          | Raise e => (log ++ [Mistral], Raise e)
          end
      | None => (log, Raise (ValueError both_failed_msg))
      end
  end.

(** [LLMClient.generate_with_tools], likewise. *)
Definition generate_with_tools_log (c : client) (n : nat)
  : list backend * result tool_response :=
  let try_primary :=
    match primary_client c with
    | Some p =>
        match p n with
        | Ok m => ([Primary], Some (to_response m))
        | Raise _ => ([Primary], None)
        end
    | None => ([], None)
    end in
  match try_primary with
  | (log, Some r) => (log, Ok r)
  | (log, None) =>
      match mistral_api_key c with
      | Some f =>
          match f n with
          | Ok m => (log ++ [Mistral], Ok (to_response m))
          | Raise e => (log ++ [Mistral], Raise e)
          end
      | None => (log, Raise (ValueError both_failed_msg))
      end
  end.

Definition generate (c : client) (n : nat) : result (option string) :=
  snd (generate_log c n).

Definition generate_with_tools (c : client) (n : nat) : result tool_response :=
  snd (generate_with_tools_log c n).

(** The underlying failures an exception reports: an SDK error reports its
    own; the client's [ValueError] is a fixed text and reports none. *)
Definition causes (e : exn) : list string :=
  match e with
  | APIError m => [m]
  | _ => []
  end.

End LLMClient.
Import LLMClient.

(** ** Library values: JSON, floats, regular expressions *)

Module Lib.

(** What [json.loads] returns.  A number is the rational it denotes. *)
#[warnings="-register-all"]
Inductive json : Type :=
| JNull
| JBool (b : bool)
| JNum (q : Q)
| JStr (s : string)
| JArr (l : list json)
| JObj (kv : list (string * json)).

Definition dict : Type := list (string * json).

(** [d.get(k)] *)
Fixpoint dict_get (d : dict) (k : string) : option json :=
  match d with
  | [] => None
  | (k', v) :: d' => if String.eqb k k' then Some v else dict_get d' k
  end.

(** [v[k]] for a string key [k]. *)
Definition getitem (v : json) (k : string) : result json :=
  match v with
  | JObj kv =>
      match dict_get kv k with
      | Some x => Ok x
      | None => Raise (KeyError ("'" ++ k ++ "'")%string)
      end
  | _ => Raise (TypeError "indices must be integers or object is not subscriptable")
  end.

(** Python truthiness. *)
Definition truthy (v : json) : bool :=
  match v with
  | JNull => false
  | JBool b => b
  | JNum q => negb (Qeq_bool q 0)
  | JStr s => truthy_str s
  | JArr l => match l with [] => false | _ => true end
  | JObj kv => match kv with [] => false | _ => true end
  end.

(** [f"{v:.2f}"] succeeds on numbers and booleans only. *)
Definition format_2f_check (v : json) : result unit :=
  match v with
  | JNum _ | JBool _ => Ok tt
  | JStr _ => Raise (ValueError "Unknown format code f for object of type str")
  | _ => Raise (TypeError "unsupported format string")
  end.

(** [enumerate(v, 1)] needs an iterable. *)
Definition iter_check (v : json) : result unit :=
  match v with
  | JArr _ | JStr _ | JObj _ => Ok tt
  | _ => Raise (TypeError "object is not iterable")
  end.

(** *** binary64 *)

Definition round_half_even (q : Q) : Z :=
  let f := Qfloor q in
  match Qcompare (q - inject_Z f) (1 # 2) with
  | Lt => f
  | Gt => (f + 1)%Z
  | Eq => if Z.even f then f else (f + 1)%Z
  end.

(** For [0 < q]: the [e] with [2^e <= q < 2^(e+1)]. *)
Definition floor_log2 (q : Q) : Z :=
  let e0 := (Z.log2 (Qnum q) - Z.log2 (Zpos (Qden q)))%Z in
  if Qle_bool (Qpower 2 e0) q then e0 else (e0 - 1)%Z.

(** [float(text)] for a decimal literal denoting [q], [0 <= q <= 1]: the
    nearest double, ties to even, as a rational. *)
Definition py_float (q : Q) : Q :=
  if Qle_bool q 0 then 0%Q
  else
    let e := Z.max (floor_log2 q) (-1022) in
    let quantum := Qpower 2 (e - 52) in
    (inject_Z (round_half_even (q / quantum)) * quantum)%Q.

Definition two_digits (n : Z) : string :=
  ((if (n <? 10)%Z then "0" else "") ++ NilZero.string_of_int (Z.to_int n))%string.

(** [f"{x:.2f}"] for a double [0 <= x]. *)
Definition format_2f (x : Q) : string :=
  let n := round_half_even (x * 100)%Q in
  (NilZero.string_of_int (Z.to_int (n / 100)) ++ "." ++ two_digits (n mod 100))%string.

(** *** regular expressions *)

Definition isdigit (c : ascii) : bool :=
  let n := nat_of_ascii c in (48 <=? n) && (n <=? 57).

(** the longest prefix of digits *)
Fixpoint digits (s : string) : string :=
  match s with
  | String c s' => if isdigit c then String c (digits s') else EmptyString
  | EmptyString => EmptyString
  end.

(** A match of [0?\.\d+|1\.0|0|1] that starts at the head of [s]; the
    alternatives are tried from left to right. *)
Definition score_match_here (s : string) : option string :=
  match s with
  | String "0" (String "." r) =>
      match digits r with
      | EmptyString => Some "0"
      | d => Some ("0." ++ d)%string
      end
  | String "." r =>
      match digits r with
      | EmptyString => None
      | d => Some ("." ++ d)%string
      end
  | String "1" (String "." (String "0" _)) => Some "1.0"
  | String "0" _ => Some "0"
  | String "1" _ => Some "1"
  | _ => None
  end.

(** [re.search(r'0?\.\d+|1\.0|0|1', s)]: the leftmost match. *)
Fixpoint score_search (s : string) : option string :=
  match score_match_here s with
  | Some m => Some m
  | None =>
      match s with
      | String _ s' => score_search s'
      | EmptyString => None
      end
  end.

Definition digit_val (c : ascii) : Z := Z.of_nat (nat_of_ascii c - 48).

(** digits read as a natural number, with the number of digits read *)
Fixpoint decimal_acc (s : string) (acc : Z) (len : nat) : Z * nat :=
  match s with
  | String c s' =>
      if isdigit c then decimal_acc s' (10 * acc + digit_val c)%Z (S len)
      else (acc, len)
  | EmptyString => (acc, len)
  end.

(** The rational a literal matched by [score_search] denotes. *)
Definition literal_value (m : string) : Q :=
  let ip := digits m in
  let (i, _) := decimal_acc ip 0%Z 0 in
  match drop (String.length ip) m with
  | String "." r =>
      let (f, k) := decimal_acc r 0%Z 0 in
      (inject_Z i + inject_Z f / inject_Z (10 ^ Z.of_nat k))%Q
  | _ => inject_Z i
  end.

(** the text after the first occurrence of [sub] *)
Fixpoint after_first (sub s : string) : option string :=
  if String.prefix sub s then Some (drop (String.length sub) s)
  else match s with
       | String _ s' => after_first sub s'
       | EmptyString => None
       end.

Definition fence : string := "```".

(** the shortest prefix of [r] that is followed by [\s*```] *)
Fixpoint lazy_group (r : string) : option string :=
  if String.prefix fence (lstrip r) then Some EmptyString
  else match r with
       | String c r' => option_map (String c) (lazy_group r')
       | EmptyString => None
       end.

(** group 1 of [re.search(r'```(?:sql)?\s*(.*?)\s*```', s, re.DOTALL)] *)
Definition fence_search (s : string) : option string :=
  match after_first fence s with
  | None => None
  | Some r =>
      let r1 := if String.prefix "sql" r then drop 3 r else r in
      lazy_group (lstrip r1)
  end.

(** the text up to and including the last ["}"] *)
Fixpoint upto_last_brace (s : string) : option string :=
  match s with
  | EmptyString => None
  | String c s' =>
      match upto_last_brace s' with
      | Some t => Some (String c t)
      | None => if Ascii.eqb c "}" then Some (String c EmptyString) else None
      end
  end.

(** [re.search(r'\{.*\}', s, re.DOTALL)]: first ["{"] to last ["}"]. *)
Fixpoint json_search (s : string) : option string :=
  match s with
  | EmptyString => None
  | String c s' =>
      if Ascii.eqb c "{" then option_map (String c) (upto_last_brace s')
      else json_search s'
  end.

End Lib.
Import Lib.

(** ** sql_agent.py *)

Module Agent.

(** [AgentState].  The [messages] channel is never read or written by any
    node and is left out.  A table descriptor is represented by its
    [table_name]; descriptions and columns only feed prompts. *)
Record AgentState : Type := {
  user_query : string;
  selected_tool_order : list nat;
  current_tool_index : nat;
  tools_attempted : list nat;
  selected_tables : option (list string);
  selected_category : option string;
  tables_satisfactory : bool;
  planner_reasoning : string;
  generated_sql : option string;
  sql_generation_attempts : nat;
  sql_generation_error : option string;
  sql_valid : bool;
  sql_history : list string;
  evaluation_result : dict;
  optimization_suggestions : json;
  accuracy_score : json;
  needs_regeneration : bool;
  tool_calls_made : list (string * list string);
  final_sql : option string;
  error_message : option string;
  workflow_complete : bool
}.

(** [state[k] = v], one function per key. *)
Definition set_selected_tool_order (v : list nat) (s : AgentState) : AgentState :=
  {| user_query := user_query s; selected_tool_order := v;
     current_tool_index := current_tool_index s; tools_attempted :=
     tools_attempted s; selected_tables := selected_tables s;
     selected_category := selected_category s; tables_satisfactory :=
     tables_satisfactory s; planner_reasoning := planner_reasoning s;
     generated_sql := generated_sql s; sql_generation_attempts :=
     sql_generation_attempts s; sql_generation_error :=
     sql_generation_error s; sql_valid := sql_valid s; sql_history :=
     sql_history s; evaluation_result := evaluation_result s;
     optimization_suggestions := optimization_suggestions s;
     accuracy_score := accuracy_score s; needs_regeneration :=
     needs_regeneration s; tool_calls_made := tool_calls_made s; final_sql
     := final_sql s; error_message := error_message s; workflow_complete
     := workflow_complete s |}.
Definition set_current_tool_index (v : nat) (s : AgentState) : AgentState :=
  {| user_query := user_query s; selected_tool_order :=
     selected_tool_order s; current_tool_index := v; tools_attempted :=
     tools_attempted s; selected_tables := selected_tables s;
     selected_category := selected_category s; tables_satisfactory :=
     tables_satisfactory s; planner_reasoning := planner_reasoning s;
     generated_sql := generated_sql s; sql_generation_attempts :=
     sql_generation_attempts s; sql_generation_error :=
     sql_generation_error s; sql_valid := sql_valid s; sql_history :=
     sql_history s; evaluation_result := evaluation_result s;
     optimization_suggestions := optimization_suggestions s;
     accuracy_score := accuracy_score s; needs_regeneration :=
     needs_regeneration s; tool_calls_made := tool_calls_made s; final_sql
     := final_sql s; error_message := error_message s; workflow_complete
     := workflow_complete s |}.
Definition set_tools_attempted (v : list nat) (s : AgentState) : AgentState :=
  {| user_query := user_query s; selected_tool_order :=
     selected_tool_order s; current_tool_index := current_tool_index s;
     tools_attempted := v; selected_tables := selected_tables s;
     selected_category := selected_category s; tables_satisfactory :=
     tables_satisfactory s; planner_reasoning := planner_reasoning s;
     generated_sql := generated_sql s; sql_generation_attempts :=
     sql_generation_attempts s; sql_generation_error :=
     sql_generation_error s; sql_valid := sql_valid s; sql_history :=
     sql_history s; evaluation_result := evaluation_result s;
     optimization_suggestions := optimization_suggestions s;
     accuracy_score := accuracy_score s; needs_regeneration :=
     needs_regeneration s; tool_calls_made := tool_calls_made s; final_sql
     := final_sql s; error_message := error_message s; workflow_complete
     := workflow_complete s |}.
Definition set_selected_tables (v : option (list string)) (s : AgentState) : AgentState :=
  {| user_query := user_query s; selected_tool_order :=
     selected_tool_order s; current_tool_index := current_tool_index s;
     tools_attempted := tools_attempted s; selected_tables := v;
     selected_category := selected_category s; tables_satisfactory :=
     tables_satisfactory s; planner_reasoning := planner_reasoning s;
     generated_sql := generated_sql s; sql_generation_attempts :=
     sql_generation_attempts s; sql_generation_error :=
     sql_generation_error s; sql_valid := sql_valid s; sql_history :=
     sql_history s; evaluation_result := evaluation_result s;
     optimization_suggestions := optimization_suggestions s;
     accuracy_score := accuracy_score s; needs_regeneration :=
     needs_regeneration s; tool_calls_made := tool_calls_made s; final_sql
     := final_sql s; error_message := error_message s; workflow_complete
     := workflow_complete s |}.
Definition set_selected_category (v : option string) (s : AgentState) : AgentState :=
  {| user_query := user_query s; selected_tool_order :=
     selected_tool_order s; current_tool_index := current_tool_index s;
     tools_attempted := tools_attempted s; selected_tables :=
     selected_tables s; selected_category := v; tables_satisfactory :=
     tables_satisfactory s; planner_reasoning := planner_reasoning s;
     generated_sql := generated_sql s; sql_generation_attempts :=
     sql_generation_attempts s; sql_generation_error :=
     sql_generation_error s; sql_valid := sql_valid s; sql_history :=
     sql_history s; evaluation_result := evaluation_result s;
     optimization_suggestions := optimization_suggestions s;
     accuracy_score := accuracy_score s; needs_regeneration :=
     needs_regeneration s; tool_calls_made := tool_calls_made s; final_sql
     := final_sql s; error_message := error_message s; workflow_complete
     := workflow_complete s |}.
Definition set_tables_satisfactory (v : bool) (s : AgentState) : AgentState :=
  {| user_query := user_query s; selected_tool_order :=
     selected_tool_order s; current_tool_index := current_tool_index s;
     tools_attempted := tools_attempted s; selected_tables :=
     selected_tables s; selected_category := selected_category s;
     tables_satisfactory := v; planner_reasoning := planner_reasoning s;
     generated_sql := generated_sql s; sql_generation_attempts :=
     sql_generation_attempts s; sql_generation_error :=
     sql_generation_error s; sql_valid := sql_valid s; sql_history :=
     sql_history s; evaluation_result := evaluation_result s;
     optimization_suggestions := optimization_suggestions s;
     accuracy_score := accuracy_score s; needs_regeneration :=
     needs_regeneration s; tool_calls_made := tool_calls_made s; final_sql
     := final_sql s; error_message := error_message s; workflow_complete
     := workflow_complete s |}.
Definition set_planner_reasoning (v : string) (s : AgentState) : AgentState :=
  {| user_query := user_query s; selected_tool_order :=
     selected_tool_order s; current_tool_index := current_tool_index s;
     tools_attempted := tools_attempted s; selected_tables :=
     selected_tables s; selected_category := selected_category s;
     tables_satisfactory := tables_satisfactory s; planner_reasoning := v;
     generated_sql := generated_sql s; sql_generation_attempts :=
     sql_generation_attempts s; sql_generation_error :=
     sql_generation_error s; sql_valid := sql_valid s; sql_history :=
     sql_history s; evaluation_result := evaluation_result s;
     optimization_suggestions := optimization_suggestions s;
     accuracy_score := accuracy_score s; needs_regeneration :=
     needs_regeneration s; tool_calls_made := tool_calls_made s; final_sql
     := final_sql s; error_message := error_message s; workflow_complete
     := workflow_complete s |}.
Definition set_generated_sql (v : option string) (s : AgentState) : AgentState :=
  {| user_query := user_query s; selected_tool_order :=
     selected_tool_order s; current_tool_index := current_tool_index s;
     tools_attempted := tools_attempted s; selected_tables :=
     selected_tables s; selected_category := selected_category s;
     tables_satisfactory := tables_satisfactory s; planner_reasoning :=
     planner_reasoning s; generated_sql := v; sql_generation_attempts :=
     sql_generation_attempts s; sql_generation_error :=
     sql_generation_error s; sql_valid := sql_valid s; sql_history :=
     sql_history s; evaluation_result := evaluation_result s;
     optimization_suggestions := optimization_suggestions s;
     accuracy_score := accuracy_score s; needs_regeneration :=
     needs_regeneration s; tool_calls_made := tool_calls_made s; final_sql
     := final_sql s; error_message := error_message s; workflow_complete
     := workflow_complete s |}.
Definition set_sql_generation_attempts (v : nat) (s : AgentState) : AgentState :=
  {| user_query := user_query s; selected_tool_order :=
     selected_tool_order s; current_tool_index := current_tool_index s;
     tools_attempted := tools_attempted s; selected_tables :=
     selected_tables s; selected_category := selected_category s;
     tables_satisfactory := tables_satisfactory s; planner_reasoning :=
     planner_reasoning s; generated_sql := generated_sql s;
     sql_generation_attempts := v; sql_generation_error :=
     sql_generation_error s; sql_valid := sql_valid s; sql_history :=
     sql_history s; evaluation_result := evaluation_result s;
     optimization_suggestions := optimization_suggestions s;
     accuracy_score := accuracy_score s; needs_regeneration :=
     needs_regeneration s; tool_calls_made := tool_calls_made s; final_sql
     := final_sql s; error_message := error_message s; workflow_complete
     := workflow_complete s |}.
Definition set_sql_generation_error (v : option string) (s : AgentState) : AgentState :=
  {| user_query := user_query s; selected_tool_order :=
     selected_tool_order s; current_tool_index := current_tool_index s;
     tools_attempted := tools_attempted s; selected_tables :=
     selected_tables s; selected_category := selected_category s;
     tables_satisfactory := tables_satisfactory s; planner_reasoning :=
     planner_reasoning s; generated_sql := generated_sql s;
     sql_generation_attempts := sql_generation_attempts s;
     sql_generation_error := v; sql_valid := sql_valid s; sql_history :=
     sql_history s; evaluation_result := evaluation_result s;
     optimization_suggestions := optimization_suggestions s;
     accuracy_score := accuracy_score s; needs_regeneration :=
     needs_regeneration s; tool_calls_made := tool_calls_made s; final_sql
     := final_sql s; error_message := error_message s; workflow_complete
     := workflow_complete s |}.
Definition set_sql_valid (v : bool) (s : AgentState) : AgentState :=
  {| user_query := user_query s; selected_tool_order :=
     selected_tool_order s; current_tool_index := current_tool_index s;
     tools_attempted := tools_attempted s; selected_tables :=
     selected_tables s; selected_category := selected_category s;
     tables_satisfactory := tables_satisfactory s; planner_reasoning :=
     planner_reasoning s; generated_sql := generated_sql s;
     sql_generation_attempts := sql_generation_attempts s;
     sql_generation_error := sql_generation_error s; sql_valid := v;
     sql_history := sql_history s; evaluation_result := evaluation_result
     s; optimization_suggestions := optimization_suggestions s;
     accuracy_score := accuracy_score s; needs_regeneration :=
     needs_regeneration s; tool_calls_made := tool_calls_made s; final_sql
     := final_sql s; error_message := error_message s; workflow_complete
     := workflow_complete s |}.
Definition set_sql_history (v : list string) (s : AgentState) : AgentState :=
  {| user_query := user_query s; selected_tool_order :=
     selected_tool_order s; current_tool_index := current_tool_index s;
     tools_attempted := tools_attempted s; selected_tables :=
     selected_tables s; selected_category := selected_category s;
     tables_satisfactory := tables_satisfactory s; planner_reasoning :=
     planner_reasoning s; generated_sql := generated_sql s;
     sql_generation_attempts := sql_generation_attempts s;
     sql_generation_error := sql_generation_error s; sql_valid :=
     sql_valid s; sql_history := v; evaluation_result := evaluation_result
     s; optimization_suggestions := optimization_suggestions s;
     accuracy_score := accuracy_score s; needs_regeneration :=
     needs_regeneration s; tool_calls_made := tool_calls_made s; final_sql
     := final_sql s; error_message := error_message s; workflow_complete
     := workflow_complete s |}.
Definition set_evaluation_result (v : dict) (s : AgentState) : AgentState :=
  {| user_query := user_query s; selected_tool_order :=
     selected_tool_order s; current_tool_index := current_tool_index s;
     tools_attempted := tools_attempted s; selected_tables :=
     selected_tables s; selected_category := selected_category s;
     tables_satisfactory := tables_satisfactory s; planner_reasoning :=
     planner_reasoning s; generated_sql := generated_sql s;
     sql_generation_attempts := sql_generation_attempts s;
     sql_generation_error := sql_generation_error s; sql_valid :=
     sql_valid s; sql_history := sql_history s; evaluation_result := v;
     optimization_suggestions := optimization_suggestions s;
     accuracy_score := accuracy_score s; needs_regeneration :=
     needs_regeneration s; tool_calls_made := tool_calls_made s; final_sql
     := final_sql s; error_message := error_message s; workflow_complete
     := workflow_complete s |}.
Definition set_optimization_suggestions (v : json) (s : AgentState) : AgentState :=
  {| user_query := user_query s; selected_tool_order :=
     selected_tool_order s; current_tool_index := current_tool_index s;
     tools_attempted := tools_attempted s; selected_tables :=
     selected_tables s; selected_category := selected_category s;
     tables_satisfactory := tables_satisfactory s; planner_reasoning :=
     planner_reasoning s; generated_sql := generated_sql s;
     sql_generation_attempts := sql_generation_attempts s;
     sql_generation_error := sql_generation_error s; sql_valid :=
     sql_valid s; sql_history := sql_history s; evaluation_result :=
     evaluation_result s; optimization_suggestions := v; accuracy_score :=
     accuracy_score s; needs_regeneration := needs_regeneration s;
     tool_calls_made := tool_calls_made s; final_sql := final_sql s;
     error_message := error_message s; workflow_complete :=
     workflow_complete s |}.
Definition set_accuracy_score (v : json) (s : AgentState) : AgentState :=
  {| user_query := user_query s; selected_tool_order :=
     selected_tool_order s; current_tool_index := current_tool_index s;
     tools_attempted := tools_attempted s; selected_tables :=
     selected_tables s; selected_category := selected_category s;
     tables_satisfactory := tables_satisfactory s; planner_reasoning :=
     planner_reasoning s; generated_sql := generated_sql s;
     sql_generation_attempts := sql_generation_attempts s;
     sql_generation_error := sql_generation_error s; sql_valid :=
     sql_valid s; sql_history := sql_history s; evaluation_result :=
     evaluation_result s; optimization_suggestions :=
     optimization_suggestions s; accuracy_score := v; needs_regeneration
     := needs_regeneration s; tool_calls_made := tool_calls_made s;
     final_sql := final_sql s; error_message := error_message s;
     workflow_complete := workflow_complete s |}.
Definition set_needs_regeneration (v : bool) (s : AgentState) : AgentState :=
  {| user_query := user_query s; selected_tool_order :=
     selected_tool_order s; current_tool_index := current_tool_index s;
     tools_attempted := tools_attempted s; selected_tables :=
     selected_tables s; selected_category := selected_category s;
     tables_satisfactory := tables_satisfactory s; planner_reasoning :=
     planner_reasoning s; generated_sql := generated_sql s;
     sql_generation_attempts := sql_generation_attempts s;
     sql_generation_error := sql_generation_error s; sql_valid :=
     sql_valid s; sql_history := sql_history s; evaluation_result :=
     evaluation_result s; optimization_suggestions :=
     optimization_suggestions s; accuracy_score := accuracy_score s;
     needs_regeneration := v; tool_calls_made := tool_calls_made s;
     final_sql := final_sql s; error_message := error_message s;
     workflow_complete := workflow_complete s |}.
Definition set_tool_calls_made (v : list (string * list string)) (s : AgentState) : AgentState :=
  {| user_query := user_query s; selected_tool_order :=
     selected_tool_order s; current_tool_index := current_tool_index s;
     tools_attempted := tools_attempted s; selected_tables :=
     selected_tables s; selected_category := selected_category s;
     tables_satisfactory := tables_satisfactory s; planner_reasoning :=
     planner_reasoning s; generated_sql := generated_sql s;
     sql_generation_attempts := sql_generation_attempts s;
     sql_generation_error := sql_generation_error s; sql_valid :=
     sql_valid s; sql_history := sql_history s; evaluation_result :=
     evaluation_result s; optimization_suggestions :=
     optimization_suggestions s; accuracy_score := accuracy_score s;
     needs_regeneration := needs_regeneration s; tool_calls_made := v;
     final_sql := final_sql s; error_message := error_message s;
     workflow_complete := workflow_complete s |}.
Definition set_final_sql (v : option string) (s : AgentState) : AgentState :=
  {| user_query := user_query s; selected_tool_order :=
     selected_tool_order s; current_tool_index := current_tool_index s;
     tools_attempted := tools_attempted s; selected_tables :=
     selected_tables s; selected_category := selected_category s;
     tables_satisfactory := tables_satisfactory s; planner_reasoning :=
     planner_reasoning s; generated_sql := generated_sql s;
     sql_generation_attempts := sql_generation_attempts s;
     sql_generation_error := sql_generation_error s; sql_valid :=
     sql_valid s; sql_history := sql_history s; evaluation_result :=
     evaluation_result s; optimization_suggestions :=
     optimization_suggestions s; accuracy_score := accuracy_score s;
     needs_regeneration := needs_regeneration s; tool_calls_made :=
     tool_calls_made s; final_sql := v; error_message := error_message s;
     workflow_complete := workflow_complete s |}.
Definition set_error_message (v : option string) (s : AgentState) : AgentState :=
  {| user_query := user_query s; selected_tool_order :=
     selected_tool_order s; current_tool_index := current_tool_index s;
     tools_attempted := tools_attempted s; selected_tables :=
     selected_tables s; selected_category := selected_category s;
     tables_satisfactory := tables_satisfactory s; planner_reasoning :=
     planner_reasoning s; generated_sql := generated_sql s;
     sql_generation_attempts := sql_generation_attempts s;
     sql_generation_error := sql_generation_error s; sql_valid :=
     sql_valid s; sql_history := sql_history s; evaluation_result :=
     evaluation_result s; optimization_suggestions :=
     optimization_suggestions s; accuracy_score := accuracy_score s;
     needs_regeneration := needs_regeneration s; tool_calls_made :=
     tool_calls_made s; final_sql := final_sql s; error_message := v;
     workflow_complete := workflow_complete s |}.
Definition set_workflow_complete (v : bool) (s : AgentState) : AgentState :=
  {| user_query := user_query s; selected_tool_order :=
     selected_tool_order s; current_tool_index := current_tool_index s;
     tools_attempted := tools_attempted s; selected_tables :=
     selected_tables s; selected_category := selected_category s;
     tables_satisfactory := tables_satisfactory s; planner_reasoning :=
     planner_reasoning s; generated_sql := generated_sql s;
     sql_generation_attempts := sql_generation_attempts s;
     sql_generation_error := sql_generation_error s; sql_valid :=
     sql_valid s; sql_history := sql_history s; evaluation_result :=
     evaluation_result s; optimization_suggestions :=
     optimization_suggestions s; accuracy_score := accuracy_score s;
     needs_regeneration := needs_regeneration s; tool_calls_made :=
     tool_calls_made s; final_sql := final_sql s; error_message :=
     error_message s; workflow_complete := v |}.

(** *** The catalog *)

Record Category : Type := { name : string; tables : list string }.

Definition CATEGORY_1_TABLES : list string :=
  ["customers"; "customer_addresses"; "orders"; "order_items"; "payments"].
Definition CATEGORY_2_TABLES : list string :=
  ["products"; "product_variants"; "inventory"; "categories"; "suppliers"].
Definition CATEGORY_3_TABLES : list string :=
  ["warehouses"; "shipments"; "product_reviews"; "promotions"; "sales_analytics"].

Definition CATEGORY_MAP (i : nat) : option Category :=
  match i with
  | 0 => Some {| name := "Customer & Sales"; tables := CATEGORY_1_TABLES |}
  | 1 => Some {| name := "Inventory & Products"; tables := CATEGORY_2_TABLES |}
  | 2 => Some {| name := "Operations & Analytics"; tables := CATEGORY_3_TABLES |}
  | _ => None
  end.

Definition tool_name_to_index (tool_name : string) : option nat :=
  if String.eqb tool_name "get_customer_sales_tables" then Some 0
  else if String.eqb tool_name "get_inventory_products_tables" then Some 1
  else if String.eqb tool_name "get_operations_analytics_tables" then Some 2
  else None.

(** *** Library functions the agent is given *)

Record Libs : Type := {
  SQLPARSE_AVAILABLE : bool;
  (** [sqlparse.parse(sql)]: the [get_type()] of each statement, or an
      exception. *)
  sqlparse_parse : string -> result (list string);
  (** [json.loads(text)]; [None] is [json.JSONDecodeError]. *)
  json_loads : string -> option json
}.

(** *** Utility functions *)

Definition validate_sql_syntax (libs : Libs) (sql : string) : bool :=
  if negb (truthy_str sql) || negb (truthy_str (strip sql)) then false
  else
    let sql := strip sql in
    let sql :=
      if startswith sql fence then
        let lines := split_lines sql in
        let sql :=
          if 2 <? length lines
          then join_lines (removelast (tl lines))
          else sql in
        if startswith sql "sql" then strip (drop 3 sql) else sql
      else sql in
    if SQLPARSE_AVAILABLE libs then
      match sqlparse_parse libs sql with
      | Raise _ => false
      | Ok [] => false
      | Ok (first_stmt :: _) =>
          String.eqb first_stmt "SELECT" || String.eqb first_stmt "WITH"
      end
    else
      let sql_upper := strip (upper sql) in
      startswith sql_upper "SELECT" || startswith sql_upper "WITH".

(** *** planner_node *)

Definition mem (i : nat) (l : list nat) : bool := existsb (Nat.eqb i) l.

(** The loop over [response["tool_calls"]]: known tools, first occurrence
    only, in the order invoked. *)
Fixpoint extract_tool_order (tcs : list tool_call) (tool_order : list nat)
  : list nat :=
  match tcs with
  | [] => tool_order
  | tc :: rest =>
      match tool_name_to_index (tc_name tc) with
      | Some idx =>
          extract_tool_order rest
            (if mem idx tool_order then tool_order else tool_order ++ [idx])
      | None => extract_tool_order rest tool_order
      end
  end.

(** [for i in range(3): if i not in tool_order: tool_order.append(i)] *)
Definition add_remaining (tool_order : list nat) : list nat :=
  fold_left (fun acc i => if mem i acc then acc else acc ++ [i]) (seq 0 3)
    tool_order.

Definition out_of_scope_message (q : string) : string :=
  ("❌ The query about '" ++ q ++
   "' is outside our Retail database scope. We handle Customers, Products, and Sales data.")%string.

Definition exhausted_message : string :=
  "❌ I couldn't find any satisfactory tables to answer your query. Please try rephrasing or ask about products, orders, or customers.".

(** [state["tool_calls_made"]["planner"] = v] *)
Fixpoint dict_set (k : string) (v : list string)
  (d : list (string * list string)) : list (string * list string) :=
  match d with
  | [] => [(k, v)]
  | (k', v') :: d' =>
      if String.eqb k k' then (k, v) :: d' else (k', v') :: dict_set k v d'
  end.

(** The first half of [planner_node] either returns from the node or falls
    through to the adequacy check. *)
Inductive ordering : Type :=
| Return (st : AgentState)
| Continue (st : AgentState).

Definition fallback_order (st : AgentState) : AgentState :=
  set_tools_attempted []
    (set_current_tool_index 0 (set_selected_tool_order [0; 1; 2] st)).

Definition record_order (tool_order : list nat) (response : tool_response)
  (st : AgentState) : AgentState :=
  set_tool_calls_made
    (dict_set "planner" (map tc_name (resp_tool_calls response))
       (tool_calls_made st))
    (set_tools_attempted []
       (set_current_tool_index 0 (set_selected_tool_order tool_order st))).

(** The dict returned at lines 492-496, applied to the state. *)
Definition out_of_scope (st : AgentState) : AgentState :=
  set_workflow_complete true
    (set_planner_reasoning "Out-of-scope query filtered."
       (set_error_message (Some (out_of_scope_message (user_query st))) st)).

(** Lines 431-522.  [n] counts the client calls made so far. *)
Definition determine_order (c : client) (st : AgentState) (n : nat)
  : ordering * nat :=
  match selected_tool_order st with
  | _ :: _ => (Continue st, n)
  | [] =>
      match generate_with_tools c n with
      | Raise _ => (Continue (fallback_order st), S n)
      | Ok response =>
          match extract_tool_order (resp_tool_calls response) [] with
          | [] =>
              match bind (generate c (S n)) strip_method with
              | Raise _ => (Continue (fallback_order st), S (S n))
              | Ok answer =>
                  let is_related := upper answer in
                  if contains "NO" is_related then
                    (Return (out_of_scope st), S (S n))
                  else
                    (Continue (record_order [0; 1; 2] response st), S (S n))
              end
          | tool_order =>
              (Continue (record_order (add_remaining tool_order) response st),
               S n)
          end
      end
  end.

(** Lines 555-560: the relevance score, a double. *)
Definition relevance_score_of (r : result (option string)) : Q :=
  match r with
  | Ok (Some score_response) =>
      match score_search score_response with
      | Some m => py_float (literal_value m)
      | None => 1 # 2
      end
  | _ => 1 # 2
  end.

(** [relevance_score >= 0.8] on doubles *)
Definition ge_0_8 (x : Q) : bool := Qle_bool (py_float (8 # 10)) x.

(** Lines 524-572: the adequacy check of the category under the cursor. *)
Definition adequacy_check (c : client) (st : AgentState) (n : nat)
  : result AgentState * nat :=
  let current_idx := current_tool_index st in
  let tool_order := selected_tool_order st in
  match nth_error tool_order current_idx with
  | None =>                       (* current_idx >= len(tool_order) *)
      (Ok (set_workflow_complete true
             (set_planner_reasoning
                "All available table categories were checked but none were relevant."
                (set_error_message (Some exhausted_message) st))),
       n)
  | Some tool_idx =>
      match CATEGORY_MAP tool_idx with
      | None =>
          (Raise (KeyError (NilZero.string_of_uint (Nat.to_uint tool_idx))), n)
      | Some category_info =>
          let relevance_score := relevance_score_of (generate c n) in
          let is_satisfactory := ge_0_8 relevance_score in
          (Ok (set_current_tool_index
                 (current_idx + (if is_satisfactory then 0 else 1))
              (set_tools_attempted (tools_attempted st ++ [tool_idx])
              (set_planner_reasoning
                 ("Analyzed " ++ name category_info ++ " (Score: " ++
                  format_2f relevance_score ++ ")")%string
              (set_tables_satisfactory is_satisfactory
              (set_selected_category (Some (name category_info))
              (set_selected_tables (Some (tables category_info)) st)))))),
           S n)
      end
  end.

Definition planner_node (c : client) (st : AgentState) (n : nat)
  : result AgentState * nat :=
  match determine_order c st n with
  | (Return st', n') => (Ok st', n')
  | (Continue st', n') => adequacy_check c st' n'
  end.

(** *** sql_generation_node *)

(** Lines 652-656: remove a surrounding code fence. *)
Definition clean_sql (sql_query : string) : string :=
  if contains fence sql_query then
    match fence_search sql_query with
    | Some g => strip g
    | None => sql_query
    end
  else sql_query.

Definition sql_generation_node (libs : Libs) (c : client) (st : AgentState)
  (n : nat) : result AgentState * nat :=
  match selected_tables st with
  | None =>                     (* format_table_schemas iterates over None *)
      (Raise (TypeError "'NoneType' object is not iterable"), n)
  | Some _ =>
      let attempt_num := sql_generation_attempts st + 1 in
      match bind (generate c n) strip_method with
      | Ok sql_query =>
          let sql_query := clean_sql sql_query in
          let is_valid := validate_sql_syntax libs sql_query in
          let st :=
            set_sql_history (sql_history st ++ [sql_query])
              (set_sql_generation_attempts attempt_num
                 (set_sql_valid is_valid
                    (set_generated_sql (Some sql_query) st))) in
          if negb is_valid then
            (Ok (set_sql_generation_error
                   (Some "SQL syntax validation failed") st), S n)
          else
            (Ok (set_needs_regeneration false
                   (set_sql_generation_error None st)), S n)
      | Raise e =>
          let error_msg := ("SQL generation error: " ++ exn_str e)%string in
          (Ok (set_sql_generation_attempts attempt_num
                 (set_sql_valid false
                    (set_sql_generation_error (Some error_msg) st))), S n)
      end
  end.

(** *** evaluation_node *)

(** Lines 746-770: everything in the [try] block that can raise, in order.
    [inl tt] is [json.JSONDecodeError], [inr (Raise e)] any other
    exception, [inr (Ok v)] the parsed judgment. *)
Definition parse_judgment (libs : Libs) (r : result (option string))
  : unit + result json :=
  match r with
  | Raise e => inr (Raise e)
  | Ok None =>
      inr (Raise (TypeError "expected string or bytes-like object, got 'NoneType'"))
  | Ok (Some response_text) =>
      let json_text :=
        match json_search response_text with
        | Some m => m
        | None => response_text
        end in
      match json_loads libs json_text with
      | None => inl tt
      | Some eval_result =>
          inr (bind (getitem eval_result "accuracy_score") (fun acc =>
               bind (format_2f_check acc) (fun _ =>
               bind (getitem eval_result "optimization_score") (fun opt =>
               bind (format_2f_check opt) (fun _ =>
               bind (getitem eval_result "passed") (fun _ =>
               bind (getitem eval_result "feedback") (fun _ =>
               bind (match getitem eval_result "suggestions" with
                     | Ok s => if truthy s then iter_check s else Ok tt
                     | Raise _ => Ok tt
                     end) (fun _ =>
               Ok eval_result))))))))
      end
  end.

Definition auto_approved (feedback : string) : dict :=
  [("passed", JBool true); ("accuracy_score", JNum (9 # 10));
   ("optimization_score", JNum (8 # 10)); ("feedback", JStr feedback);
   ("suggestions", JArr [])].

Definition as_dict (v : json) : dict :=
  match v with JObj kv => kv | _ => [] end.

Definition evaluation_node (libs : Libs) (c : client) (st : AgentState)
  (n : nat) : AgentState * nat :=
  let sql_query := generated_sql st in
  match parse_judgment libs (generate c n) with
  | inr (Ok eval_result) =>
      let d := as_dict eval_result in
      let passed :=
        match dict_get d "passed" with Some v => truthy v | None => false end in
      let st :=
        set_needs_regeneration (negb passed)
          (set_optimization_suggestions
             (match dict_get d "suggestions" with Some v => v | None => JArr [] end)
             (set_accuracy_score
                (match dict_get d "accuracy_score" with Some v => v | None => JNull end)
                (set_evaluation_result d st))) in
      if passed
      then (set_workflow_complete true (set_final_sql sql_query st), S n)
      else (st, S n)
  | inl tt =>
      (set_workflow_complete true
         (set_final_sql sql_query
            (set_evaluation_result
               (auto_approved "Auto-approved due to evaluation parsing error")
               st)), S n)
  | inr (Raise e) =>
      (set_workflow_complete true
         (set_final_sql sql_query
            (set_evaluation_result
               (auto_approved ("Auto-approved due to error: " ++ exn_str e)%string)
               st)), S n)
  end.

(** *** error_node *)

Definition generic_error_message : string :=
  "I apologize, but I couldn't find any relevant tables or generate a valid query for that specific request.".

Definition error_node (st : AgentState) : AgentState :=
  let st :=
    if negb (truthy_opt (error_message st)) then
      if truthy_opt (sql_generation_error st) then
        set_error_message
          (Some ("SQL Generation failed: " ++
                 match sql_generation_error st with Some e => e | None => "" end)%string)
          st
      else set_error_message (Some generic_error_message) st
    else st in
  set_workflow_complete true st.

(** *** Conditional edges *)

Inductive node : Type :=
| node_planner | node_sql_generation | node_evaluation | node_error | END.

Definition should_continue_planner (st : AgentState) : node :=
  if workflow_complete st then node_error
  else if tables_satisfactory st then node_sql_generation
  else if current_tool_index st <? length (selected_tool_order st) then node_planner
  else node_error.

Definition should_retry_sql (st : AgentState) : node :=
  if sql_valid st then node_evaluation
  else
    let attempts := sql_generation_attempts st in
    if attempts <? 2 then node_sql_generation else node_error.

Definition quality_prefix : string := "SQL generated but with quality concerns: ".

(** The edge function writes to the state it is given.  Concatenating the
    feedback raises when the feedback is not a [str]. *)
Definition should_regenerate_sql (st : AgentState) : result (node * AgentState) :=
  if workflow_complete st then Ok (END, st)
  else if needs_regeneration st then
    if 4 <=? sql_generation_attempts st then
      let st := set_final_sql (generated_sql st) st in
      match dict_get (evaluation_result st) "feedback" with
      | None => Raise (KeyError "'feedback'")
      | Some (JStr feedback) =>
          Ok (END,
              set_workflow_complete true
                (set_error_message (Some (quality_prefix ++ feedback)%string) st))
      | Some _ => Raise (TypeError "can only concatenate str to str")
      end
    else Ok (node_sql_generation, st)
  else Ok (END, st).

(** *** The graph of [create_nlp_to_sql_graph]

    The graph runtime is a library.  It is modelled as the wiring reads:
    one state dict is handed from node to node, a node's assignments and
    the dict it returns are applied to it, and the edge function of a node
    is called on the result.  The runtime stops a run after
    [recursion_limit] steps. *)

Definition recursion_limit : nat := 25.

Definition step (libs : Libs) (c : client) (nd : node) (st : AgentState)
  (n : nat) : result (node * AgentState * nat) :=
  match nd with
  | node_planner =>
      match planner_node c st n with
      | (Ok st', n') => Ok (should_continue_planner st', st', n')
      | (Raise e, _) => Raise e
      end
  | node_sql_generation =>
      match sql_generation_node libs c st n with
      | (Ok st', n') => Ok (should_retry_sql st', st', n')
      | (Raise e, _) => Raise e
      end
  | node_evaluation =>
      let (st', n') := evaluation_node libs c st n in
      match should_regenerate_sql st' with
      | Ok (nd', st'') => Ok (nd', st'', n')
      | Raise e => Raise e
      end
  | node_error => Ok (END, error_node st, n)
  | END => Ok (END, st, n)
  end.

Fixpoint invoke_from (libs : Libs) (c : client) (fuel : nat) (nd : node)
  (st : AgentState) (n : nat) : result AgentState :=
  match nd with
  | END => Ok st
  | _ =>
      match fuel with
      | 0 => Raise (ValueError "Recursion limit reached without hitting a stop condition")
      | S fuel' =>
          match step libs c nd st n with
          | Ok (nd', st', n') => invoke_from libs c fuel' nd' st' n'
          | Raise e => Raise e
          end
      end
  end.

Definition initial_state (user_query : string) : AgentState :=
  {| user_query := user_query;
     selected_tool_order := [];
     current_tool_index := 0;
     tools_attempted := [];
     selected_tables := None;
     selected_category := None;
     tables_satisfactory := false;
     planner_reasoning := "";
     generated_sql := None;
     sql_generation_attempts := 0;
     sql_generation_error := None;
     sql_valid := false;
     sql_history := [];
     evaluation_result := [];
     optimization_suggestions := JArr [];
     accuracy_score := JNum 0;
     needs_regeneration := false;
     tool_calls_made := [];
     final_sql := None;
     error_message := None;
     workflow_complete := false |}.

(** [app.invoke(initial_state)] *)
Definition invoke (libs : Libs) (c : client) (user_query : string)
  : result AgentState :=
  invoke_from libs c recursion_limit node_planner (initial_state user_query) 0.

(** *** run_nlp_to_sql *)

(** The dict [run_nlp_to_sql] returns; a key that is absent is [None]. *)
Record output : Type := {
  success : bool;
  sql : option string;
  error : option string;
  category : option string;
  tool_order : list string;
  evaluation : dict;
  out_planner_reasoning : string;
  attempts : nat;
  out_sql_history : list string;
  out_tool_calls_made : list (string * list string)
}.

Definition category_names (order : list nat) : list string :=
  flat_map (fun i => match CATEGORY_MAP i with
                     | Some cat => [name cat]
                     | None => []
                     end) order.

Definition unable_message : string :=
  "I was unable to find relevant information or generate a valid query for your request.".

Definition format_result (result : AgentState) : output :=
  let final_sql := final_sql result in
  let error_msg := error_message result in
  if truthy_opt final_sql then
    {| success := true;
       sql := final_sql;
       error := None;
       category := selected_category result;
       tool_order := category_names (selected_tool_order result);
       evaluation := evaluation_result result;
       out_planner_reasoning := planner_reasoning result;
       attempts := sql_generation_attempts result;
       out_sql_history := sql_history result;
       out_tool_calls_made := tool_calls_made result |}
  else
    {| success := false;
       sql := None;
       error := Some (if truthy_opt error_msg
                      then match error_msg with Some m => m | None => "" end
                      else unable_message);
       category := selected_category result;
       tool_order := category_names (selected_tool_order result);
       evaluation := evaluation_result result;
       out_planner_reasoning := planner_reasoning result;
       attempts := sql_generation_attempts result;
       out_sql_history := sql_history result;
       out_tool_calls_made := tool_calls_made result |}.

Definition run_nlp_to_sql (libs : Libs) (c : client) (user_query : string)
  : result output :=
  match invoke libs c user_query with
  | Ok result => Ok (format_result result)
  | Raise e => Raise e
  end.

End Agent.
Import Agent.

(** ** Runs of the graph *)

(** The configuration reached after [k] steps of a run on [user_query]: the
    node about to execute, the state and the number of client calls made. *)
Fixpoint run_to (libs : Libs) (c : client) (user_query : string) (k : nat)
  : result (node * AgentState * nat) :=
  match k with
  | 0 => Ok (node_planner, initial_state user_query, 0)
  | S k' =>
      match run_to libs c user_query k' with
      | Ok (nd, st, n) => step libs c nd st n
      | Raise e => Raise e
      end
  end.

(** An upper bound on the steps left before [END]. *)
Definition measure (nd : node) (st : AgentState) : nat :=
  match nd with
  | node_planner => 10 + (3 - current_tool_index st)
  | node_sql_generation => 2 * (4 - sql_generation_attempts st) + 1
  | node_evaluation => 2 * (4 - sql_generation_attempts st) + 2
  | node_error => 1
  | END => 0
  end.

(** The three ways a run can be complete. *)
Inductive completion (st : AgentState) : Prop :=
| Succeeded :
    truthy_opt (final_sql st) = true -> error_message st = None ->
    completion st
| Failed :
    final_sql st = None -> truthy_opt (error_message st) = true ->
    completion st
| ForcedAcceptance (feedback : string) :
    truthy_opt (final_sql st) = true ->
    final_sql st = generated_sql st ->
    error_message st = Some (quality_prefix ++ feedback)%string ->
    needs_regeneration st = true ->
    4 <= sql_generation_attempts st ->
    completion st.

Definition fresh (st : AgentState) : Prop :=
  workflow_complete st = false /\ final_sql st = None /\ error_message st = None.

(** The category order is undecided or a permutation of all categories. *)
Definition order_inv (st : AgentState) : Prop :=
  selected_tool_order st = [] \/ Permutation (selected_tool_order st) [0; 1; 2].

(** What holds of the state whenever a node is about to execute. *)
Definition node_inv (nd : node) (st : AgentState) : Prop :=
  match nd with
  | node_planner =>
      fresh st /\ sql_generation_error st = None /\
      sql_generation_attempts st = 0 /\
      ((selected_tool_order st = [] /\ current_tool_index st = 0) \/
       (Permutation (selected_tool_order st) [0; 1; 2] /\
        current_tool_index st < 3))
  | node_sql_generation =>
      fresh st /\ selected_tables st <> None /\ sql_generation_attempts st < 4
  | node_evaluation =>
      fresh st /\ selected_tables st <> None /\
      sql_generation_attempts st <= 4 /\
      exists s, generated_sql st = Some s /\ truthy_str s = true
  | node_error =>
      final_sql st = None /\
      ((workflow_complete st = false /\ error_message st = None) \/
       truthy_opt (error_message st) = true)
  | END => workflow_complete st = true /\ completion st
  end.

Definition Inv (nd : node) (st : AgentState) : Prop :=
  order_inv st /\ node_inv nd st.

(** ** The category order, as the specification words it *)

(** the categories of the declared tools among the invocations, in order *)
Definition known_indices (tcs : list tool_call) : list nat :=
  flat_map (fun tc => match tool_name_to_index (tc_name tc) with
                      | Some idx => [idx]
                      | None => []
                      end) tcs.

(** de-duplication that keeps the first occurrence of each element *)
Fixpoint first_occurrences (l : list nat) : list nat :=
  match l with
  | [] => []
  | x :: r => x :: filter (fun y => negb (y =? x)) (first_occurrences r)
  end.

(** the categories not mentioned, in natural identifier order *)
Definition not_mentioned (order : list nat) : list nat :=
  filter (fun i => negb (mem i order)) [0; 1; 2].

Definition category_order_spec (tcs : list tool_call) : list nat :=
  let invoked := first_occurrences (known_indices tcs) in
  invoked ++ not_mentioned invoked.

Definition add_once (acc : list nat) (i : nat) : list nat :=
  if mem i acc then acc else acc ++ [i].

(** What the ordering half of the planner can do on its first entry. *)
Inductive order_outcome (c : client) (st : AgentState) (n : nat)
  : ordering * nat -> Prop :=
| order_out_of_scope response answer :
    generate_with_tools c n = Ok response ->
    known_indices (resp_tool_calls response) = [] ->
    bind (generate c (S n)) strip_method = Ok answer ->
    contains "NO" (upper answer) = true ->
    order_outcome c st n (Return (out_of_scope st), S (S n))
| order_fallback n' :
    order_outcome c st n (Continue (fallback_order st), n')
| order_decided response n' :
    generate_with_tools c n = Ok response ->
    order_outcome c st n
      (Continue (record_order (category_order_spec (resp_tool_calls response))
                   response st), n').

Definition crash : exn := TypeError "can only concatenate str to str".

(** One step from a configuration that satisfies the invariant: the
    invariant holds again and the measure has decreased, or the edge
    function of the evaluation node has raised. *)
Definition step_ok (libs : Libs) (c : client) (nd : node) (st : AgentState)
  (n : nat) : Prop :=
  match step libs c nd st n with
  | Ok (nd', st', n') => Inv nd' st' /\ measure nd' st' < measure nd st
  | Raise e => e = crash
  end.

(** ** Example environments *)

Module Example.

Definition says (text : string) : result message :=
  Ok {| content := Some text; tool_calls := [] |}.

Definition invokes (names : list string) : result message :=
  Ok {| content := None;
        tool_calls := map (fun nm => {| tc_id := "call"; tc_name := nm;
                                        tc_arguments := "{}" |}) names |}.

(** A backend that answers the successive calls from a list and is
    unreachable afterwards. *)
Definition scripted (replies : list (result message)) : endpoint :=
  fun n => nth n replies (Raise (APIError "connection refused")).

Definition primary_only (replies : list (result message)) : client :=
  {| primary_client := Some (scripted replies); mistral_api_key := None |}.

Definition verdict (passed : bool) (feedback : json) : json :=
  JObj [("passed", JBool passed); ("accuracy_score", JNum (1 # 2));
        ("optimization_score", JNum (1 # 2)); ("feedback", feedback);
        ("suggestions", JArr [])].

(** Without sqlparse; [json.loads] knows three texts. *)
Definition libs : Libs :=
  {| SQLPARSE_AVAILABLE := false;
     sqlparse_parse := fun _ => Ok [];
     json_loads := fun text =>
       if String.eqb text "{pass}" then Some (verdict true (JStr "fine"))
       else if String.eqb text "{fail}" then Some (verdict false (JStr "wrong join"))
       else if String.eqb text "{null}" then Some (verdict false JNull)
       else None |}.

Definition routed : list (result message) :=
  [invokes ["get_inventory_products_tables"]; says "0.9"].

(** Four candidates, each judged failing. *)
Definition four_failures : client :=
  primary_only (routed ++
    [says "SELECT 1"; says "{fail}"; says "SELECT 2"; says "{fail}";
     says "SELECT 3"; says "{fail}"; says "SELECT 4"; says "{fail}"]).

(** As above, with a last judgment whose feedback is [null]. *)
Definition four_failures_null : client :=
  primary_only (routed ++
    [says "SELECT 1"; says "{fail}"; says "SELECT 2"; says "{fail}";
     says "SELECT 3"; says "{fail}"; says "SELECT 4"; says "{null}"]).

(** Both backends are configured and both fail on every call. *)
Definition both_down : client :=
  {| primary_client := Some (fun _ => Raise (APIError "primary timeout"));
     mistral_api_key := Some (fun _ => Raise (APIError "fallback unauthorized")) |}.

(** The providers answer until a candidate exists and are down for the
    evaluation call. *)
Definition down_at_evaluation : client :=
  {| primary_client := Some (scripted (routed ++ [says "SELECT 1"]));
     mistral_api_key := Some (fun _ => Raise (APIError "fallback unauthorized")) |}.

(** The ordering call names a tool twice and an undeclared tool. *)
Definition reordered : client :=
  primary_only
    [invokes ["get_operations_analytics_tables"; "unknown_tool";
              "get_customer_sales_tables"; "get_operations_analytics_tables"]].

(** Only the fallback backend has credentials. *)
Definition fallback_only : client :=
  {| primary_client := None; mistral_api_key := Some (scripted routed) |}.

(** Two candidates in a row that are not read queries. *)
Definition two_rejections : client :=
  primary_only (routed ++
    [says "DROP TABLE customers;"; says "DROP TABLE customers;"]).

(** The state of that run when generation is entered the second time. *)
Definition after_first_rejection : AgentState :=
  Eval vm_compute in
    match run_to libs two_rejections "q" 2 with
    | Ok (_, st, _) => st
    | Raise _ => initial_state "q"
    end.

(** One valid candidate, then a judgment that is not JSON. *)
Definition unparsable_judgment : client :=
  primary_only (routed ++ [says "SELECT 1"; says "looks good"]).

(** The state of a run on [down_at_evaluation] when evaluation is entered. *)
Definition after_candidate : AgentState :=
  Eval vm_compute in
    match run_to libs down_at_evaluation "q" 2 with
    | Ok (_, st, _) => st
    | Raise _ => initial_state "q"
    end.

(** The final state of the run on [four_failures]. *)
Definition forced_acceptance : AgentState :=
  Eval vm_compute in
    match invoke libs four_failures "q" with
    | Ok st => st
    | Raise _ => initial_state "q"
    end.

Definition unconfigured : client :=
  {| primary_client := None; mistral_api_key := None |}.

End Example.

(** ** The claims, as predicates *)

(** [x is not None] *)
Definition is_set (o : option string) : bool :=
  match o with Some _ => true | None => false end.



(** A raised error carries both underlying causes. *)
Definition carries_both (r : result (option string)) (e1 e2 : string) : Prop :=
  exists e, r = Raise e /\ In e1 (causes e) /\ In e2 (causes e).

(** A run is fatal when it returns a failure or raises. *)
Definition fatal (r : result output) : Prop :=
  match r with
  | Ok out => success out = false
  | Raise _ => True
  end.

Definition syntax_failure : string :=
  "SQL Generation failed: SQL syntax validation failed".

Definition parse_failure_feedback : string :=
  "Auto-approved due to evaluation parsing error".

(** ** llm_client.py: initialisation and chat *)

(** [_initialize]: a backend is configured when its key is set and not
    empty; [groq] and [mistral] are what the two providers would answer. *)
Definition initialize (GROQ_API_KEY MISTRAL_API_KEY : option string)
  (groq mistral : endpoint) : client :=
  {| primary_client := if truthy_opt GROQ_API_KEY then Some groq else None;
     mistral_api_key :=
       if truthy_opt MISTRAL_API_KEY then Some mistral else None |}.

Module Chat.

(** [response.choices[0].message] with the role [chat] copies. *)
Record chat_message : Type := {
  cm_message : message;
  cm_role : string
}.

Definition chat_endpoint : Type := nat -> result chat_message.

(** The client, seen by [chat]. *)
Record chat_client : Type := {
  chat_primary_client : option chat_endpoint;
  chat_mistral_api_key : option chat_endpoint
}.

(** The dict returned by [chat]. *)
Record chat_response : Type := {
  chat_content : option string;
  chat_tool_calls : list tool_call;
  chat_role : string
}.

Definition to_chat_response (m : chat_message) : chat_response :=
  {| chat_content := content (cm_message m);
     chat_tool_calls := tool_calls (cm_message m);
     chat_role := cm_role m |}.

(** [LLMClient.chat], together with the backends it attempted. *)
Definition chat_log (c : chat_client) (n : nat)
  : list backend * result chat_response :=
  let try_primary :=
    match chat_primary_client c with
    | Some p =>
        match p n with
        | Ok m => ([Primary], Some (to_chat_response m))
        | Raise _ => ([Primary], None)
        end
    | None => ([], None)
    end in
  match try_primary with
  | (log, Some r) => (log, Ok r)
  | (log, None) =>
      match chat_mistral_api_key c with
      | Some f =>
          match f n with
          | Ok m => (log ++ [Mistral], Ok (to_chat_response m))
          | Raise e => (log ++ [Mistral], Raise e)
          end
      | None => (log, Raise (ValueError both_failed_msg))
      end
  end.

Definition chat (c : chat_client) (n : nat) : result chat_response :=
  snd (chat_log c n).

End Chat.

(** ** Accounting along a run *)

(** How many client calls can have been made when a node is about to
    execute. *)
Definition call_bound (nd : node) (st : AgentState) : nat :=
  match nd with
  | node_planner =>
      match selected_tool_order st with
      | [] => 0
      | _ => 2 + current_tool_index st
      end
  | node_evaluation => 4 + 2 * sql_generation_attempts st
  | _ => 5 + 2 * sql_generation_attempts st
  end.

(** The categories judged so far: those before the cursor, and the one
    under it once it has been found adequate. *)
Definition judged (st : AgentState) : list nat :=
  firstn (current_tool_index st + (if tables_satisfactory st then 1 else 0))
    (selected_tool_order st).

(** What holds of the counters, the audit trail and the candidate whenever
    a node is about to execute. *)
Definition audit (libs : Libs) (nd : node) (st : AgentState) (n : nat) : Prop :=
  sql_generation_attempts st <= 4 /\
  length (sql_history st) <= sql_generation_attempts st /\
  tools_attempted st = judged st /\
  (sql_valid st = true ->
   exists s h, generated_sql st = Some s /\
               validate_sql_syntax libs s = true /\
               sql_history st = h ++ [s]) /\
  (final_sql st = None \/
   (final_sql st = generated_sql st /\ sql_valid st = true)) /\
  n <= call_bound nd st /\
  match nd with
  | node_planner =>
      sql_history st = [] /\ sql_valid st = false /\
      tables_satisfactory st = false
  | node_evaluation => sql_valid st = true
  | _ => True
  end.

(** ** Further example environments *)

Module Scenario.



(** The state of the run on [Example.two_rejections] after the second
    candidate has been rejected. *)
Definition after_second_rejection : AgentState :=
  Eval vm_compute in
    match run_to Example.libs Example.two_rejections "q" 3 with
    | Ok (_, st, _) => st
    | Raise _ => initial_state "q"
    end.

(** The run on [Example.four_failures]: the state in which the first
    candidate is evaluated, and the state after its rejection. *)
Definition first_candidate : AgentState :=
  Eval vm_compute in
    match run_to Example.libs Example.four_failures "q" 2 with
    | Ok (_, st, _) => st
    | Raise _ => initial_state "q"
    end.

Definition first_rejected : AgentState :=
  Eval vm_compute in
    match run_to Example.libs Example.four_failures "q" 3 with
    | Ok (_, st, _) => st
    | Raise _ => initial_state "q"
    end.



(** A [json.loads] that knows one judgment, which has no scores. *)
Definition sparse_libs : Libs :=
  {| SQLPARSE_AVAILABLE := false;
     sqlparse_parse := fun _ => Ok [];
     json_loads := fun text =>
       if String.eqb text "{sparse}"
       then Some (JObj [("passed", JBool false); ("feedback", JStr "bad")])
       else None |}.

(** A primary backend that answers, in front of a fallback that would
    fail. *)
Definition primary_up : client :=
  {| primary_client := Some (Example.scripted [Example.says "SELECT 1"]);
     mistral_api_key := Some (fun _ => Raise (APIError "fallback unauthorized")) |}.

(** A primary backend that fails, in front of a fallback that answers. *)
Definition primary_down : client :=
  {| primary_client := Some (fun _ => Raise (APIError "primary timeout"));
     mistral_api_key := Some (Example.scripted [Example.says "SELECT 1"]) |}.

(** The same, seen by [chat]. *)
Definition chat_primary_down : Chat.chat_client :=
  {| Chat.chat_primary_client :=
       Some (fun _ => Raise (APIError "primary timeout"));
     Chat.chat_mistral_api_key :=
       Some (fun _ => Ok {| Chat.cm_message := {| content := Some "hello";
                                                  tool_calls := [] |};
                            Chat.cm_role := "assistant" |}) |}.

End Scenario.

(** ** The messages of a run *)




(** ** Judgments *)

(** The four keys [evaluation_node] reads with a subscript. *)
Definition required_keys : list string :=
  ["accuracy_score"; "optimization_score"; "passed"; "feedback"].

(** ** main.py *)

Module Main.

(** What the [/generate-sql] endpoint answers: the result of the run with
    status 200, or status 500 with the text of the exception.  The result
    has the fields of the response model, with values of the declared
    types, so the validation of the answer by the framework is left out. *)
Inductive response : Type :=
| Status200 (body : output)
| Status500 (detail : string).


End Main.

(** Where a run raises: the evaluation of the fourth candidate, rejected by
    a well-formed judgment whose feedback is not a string. *)
Definition raise_site (libs : Libs) (c : client) (q : string) : Prop :=
  exists k st n kv p fb,
    run_to libs c q k = Ok (node_evaluation, st, n) /\
    sql_generation_attempts st = 4 /\
    parse_judgment libs (generate c n) = inr (Ok (JObj kv)) /\
    dict_get kv "passed" = Some p /\ truthy p = false /\
    dict_get kv "feedback" = Some fb /\ (forall s, fb <> JStr s).

(** ** Texts *)

(** A reply that wraps [body] in a code fence tagged sql, after the text
    [pre] and before the text [post]. *)
Definition fenced (pre body post : string) : string :=
  (pre ++ fence ++ "sql" ++
   String newline (body ++ String newline (fence ++ post)))%string.

(** A text that does not begin with white space. *)
Definition unpadded_left (t : string) : Prop :=
  match t with
  | EmptyString => True
  | String c _ => isspace c = false
  end.

(** * Lemmas and theorems *)

Lemma validate_nonempty libs s :
  validate_sql_syntax libs s = true -> truthy_str s = true.
Proof.
  unfold validate_sql_syntax. destruct s; simpl; [discriminate | reflexivity].
Qed.

Lemma perm3_nth (l : list nat) i :
  Permutation l [0; 1; 2] -> i < 3 ->
  exists x, nth_error l i = Some x /\ x < 3.
Proof.
  intros P Hi.
  assert (L : length l = 3) by (apply Permutation_length in P; exact P).
  destruct (nth_error l i) as [x|] eqn:E.
  - exists x; split; [reflexivity|].
    apply nth_error_In in E. apply (Permutation_in _ P) in E.
    simpl in E. lia.
  - apply nth_error_None in E. lia.
Qed.

Lemma category_defined x : x < 3 -> exists cat, CATEGORY_MAP x = Some cat.
Proof.
  intros H. destruct x as [|[|[|x]]]; simpl; eauto; lia.
Qed.

Lemma extract_as_fold tcs : forall acc,
  extract_tool_order tcs acc = fold_left add_once (known_indices tcs) acc.
Proof.
  induction tcs as [|tc tcs IH]; intros acc; simpl; [reflexivity|].
  destruct (tool_name_to_index (tc_name tc)) as [idx|]; simpl; apply IH.
Qed.

Lemma filter_filter_comm {A} (p r : A -> bool) l :
  filter p (filter r l) = filter r (filter p l).
Proof.
  induction l as [|x l IH]; simpl; [reflexivity|].
  destruct (p x) eqn:P, (r x) eqn:R; simpl; rewrite ?P, ?R, IH; reflexivity.
Qed.

Lemma filter_absorb (p : nat -> bool) x l :
  p x = false -> filter p (filter (fun y => negb (y =? x)) l) = filter p l.
Proof.
  intros Px. induction l as [|y l IH]; simpl; [reflexivity|].
  destruct (Nat.eqb_spec y x) as [->|N]; simpl.
  - rewrite Px. exact IH.
  - destruct (p y); rewrite IH; reflexivity.
Qed.

Lemma first_occurrences_filter (p : nat -> bool) l :
  first_occurrences (filter p l) = filter p (first_occurrences l).
Proof.
  induction l as [|x l IH]; simpl; [reflexivity|].
  destruct (p x) eqn:Px; simpl; rewrite ?Px, IH.
  - f_equal. apply filter_filter_comm.
  - symmetry. apply filter_absorb. exact Px.
Qed.

Lemma mem_app i a b : mem i (a ++ b) = mem i a || mem i b.
Proof. unfold mem. apply existsb_app. Qed.

Lemma filter_not_mem_snoc acc x l :
  filter (fun i => negb (mem i (acc ++ [x]))) l =
  filter (fun i => negb (mem i acc)) (filter (fun y => negb (y =? x)) l).
Proof.
  induction l as [|y l IH]; simpl; [reflexivity|].
  rewrite mem_app. simpl. rewrite orb_false_r, (Nat.eqb_sym y x), negb_orb.
  destruct (x =? y); simpl.
  - rewrite andb_false_r. exact IH.
  - rewrite andb_true_r. destruct (mem y acc); simpl; rewrite IH; reflexivity.
Qed.

Lemma fold_add_once l : forall acc,
  fold_left add_once l acc =
  acc ++ first_occurrences (filter (fun i => negb (mem i acc)) l).
Proof.
  induction l as [|x l IH]; intros acc; simpl.
  - symmetry. apply app_nil_r.
  - unfold add_once at 2. destruct (mem x acc) eqn:M; simpl.
    + apply IH.
    + rewrite IH, <- app_assoc. simpl. do 2 f_equal.
      rewrite <- first_occurrences_filter. f_equal.
      rewrite filter_filter_comm. apply filter_not_mem_snoc.
Qed.

Lemma extract_tool_order_spec tcs :
  extract_tool_order tcs [] = first_occurrences (known_indices tcs).
Proof.
  rewrite extract_as_fold, fold_add_once. simpl.
  f_equal. induction (known_indices tcs); simpl; congruence.
Qed.

Lemma add_remaining_spec order :
  add_remaining order = order ++ not_mentioned order.
Proof.
  unfold add_remaining. change (fold_left _ (seq 0 3) order)
    with (fold_left add_once [0; 1; 2] order).
  rewrite fold_add_once, first_occurrences_filter. reflexivity.
Qed.

Lemma known_indices_lt tcs x : In x (known_indices tcs) -> x < 3.
Proof.
  unfold known_indices. rewrite in_flat_map. intros [tc [_ H]].
  unfold tool_name_to_index in H.
  repeat match type of H with
         | context [if ?b then _ else _] => destruct b
         end; simpl in H; lia.
Qed.

Lemma first_occurrences_In l x : In x (first_occurrences l) <-> In x l.
Proof.
  induction l as [|y l IH]; simpl; [tauto|].
  rewrite filter_In, IH. destruct (Nat.eqb_spec x y); simpl.
  - subst. tauto.
  - split; [tauto|]. intros [E|H]; [congruence|auto].
Qed.

Lemma first_occurrences_NoDup l : NoDup (first_occurrences l).
Proof.
  induction l as [|y l IH]; simpl; constructor.
  - rewrite filter_In. rewrite Nat.eqb_refl. simpl. intros [_ H]. discriminate.
  - apply NoDup_filter. exact IH.
Qed.

Lemma mem_In i l : mem i l = true <-> In i l.
Proof.
  unfold mem. rewrite existsb_exists. split.
  - intros [x [H E]]. apply Nat.eqb_eq in E. subst. exact H.
  - intros H. exists i. split; [exact H | apply Nat.eqb_refl].
Qed.

Lemma completed_order_perm (invoked : list nat) :
  NoDup invoked -> (forall x, In x invoked -> x < 3) ->
  Permutation (invoked ++ not_mentioned invoked) [0; 1; 2].
Proof.
  intros ND LT. apply NoDup_Permutation.
  - apply NoDup_app; repeat split; auto.
    + apply NoDup_filter. repeat constructor; simpl; intuition lia.
    + intros x Hx Hy. unfold not_mentioned in Hy. apply filter_In in Hy.
      destruct Hy as [_ Hy]. apply mem_In in Hx. rewrite Hx in Hy. discriminate.
  - repeat constructor; simpl; intuition lia.
  - intros x. rewrite in_app_iff. unfold not_mentioned. rewrite filter_In.
    split.
    + intros [H|[H _]]; [|exact H]. apply LT in H. simpl. lia.
    + intros H. destruct (mem x invoked) eqn:M.
      * left. apply mem_In. exact M.
      * right. split; [exact H | reflexivity].
Qed.

Lemma category_order_spec_perm tcs :
  Permutation (category_order_spec tcs) [0; 1; 2].
Proof.
  unfold category_order_spec. apply completed_order_perm.
  - apply first_occurrences_NoDup.
  - intros x H. rewrite first_occurrences_In in H.
    eapply known_indices_lt. exact H.
Qed.

Lemma first_occurrences_nil l : first_occurrences l = [] -> l = [].
Proof. destruct l; simpl; [reflexivity | discriminate]. Qed.

Lemma determine_order_outcome c st n :
  selected_tool_order st = [] ->
  order_outcome c st n (determine_order c st n).
Proof.
  intros E. unfold determine_order. rewrite E.
  destruct (generate_with_tools c n) as [response|e] eqn:G;
    [|apply order_fallback].
  rewrite extract_tool_order_spec.
  destruct (first_occurrences (known_indices (resp_tool_calls response)))
    as [|i invoked] eqn:F.
  - destruct (bind (generate c (S n)) strip_method) as [answer|e] eqn:A;
      [|apply order_fallback].
    destruct (contains "NO" (upper answer)) eqn:N.
    + eapply order_out_of_scope; eauto using first_occurrences_nil.
    + replace [0; 1; 2] with (category_order_spec (resp_tool_calls response)).
      * apply order_decided. exact G.
      * unfold category_order_spec. rewrite F. reflexivity.
  - rewrite add_remaining_spec, <- F. apply order_decided. exact G.
Qed.

Lemma out_of_scope_message_truthy q : truthy_str (out_of_scope_message q) = true.
Proof. reflexivity. Qed.

(** Reduce field reads of updated states, and nothing else. *)
Ltac state_simpl :=
  cbn [
    user_query selected_tool_order current_tool_index tools_attempted
    selected_tables selected_category tables_satisfactory
    planner_reasoning generated_sql sql_generation_attempts
    sql_generation_error sql_valid sql_history evaluation_result
    optimization_suggestions accuracy_score needs_regeneration
    tool_calls_made final_sql error_message workflow_complete
    set_selected_tool_order set_current_tool_index set_tools_attempted
    set_selected_tables set_selected_category set_tables_satisfactory
    set_planner_reasoning set_generated_sql
    set_sql_generation_attempts set_sql_generation_error set_sql_valid
    set_sql_history set_evaluation_result set_optimization_suggestions
    set_accuracy_score set_needs_regeneration set_tool_calls_made
    set_final_sql set_error_message set_workflow_complete
    fallback_order record_order out_of_scope initial_state ].
Ltac state_simpl_in H :=
  cbn [
    user_query selected_tool_order current_tool_index tools_attempted
    selected_tables selected_category tables_satisfactory
    planner_reasoning generated_sql sql_generation_attempts
    sql_generation_error sql_valid sql_history evaluation_result
    optimization_suggestions accuracy_score needs_regeneration
    tool_calls_made final_sql error_message workflow_complete
    set_selected_tool_order set_current_tool_index set_tools_attempted
    set_selected_tables set_selected_category set_tables_satisfactory
    set_planner_reasoning set_generated_sql
    set_sql_generation_attempts set_sql_generation_error set_sql_valid
    set_sql_history set_evaluation_result set_optimization_suggestions
    set_accuracy_score set_needs_regeneration set_tool_calls_made
    set_final_sql set_error_message set_workflow_complete
    fallback_order record_order out_of_scope initial_state ] in H.

Ltac inv_split :=
  unfold Inv, node_inv, order_inv, measure, fresh; state_simpl.

Lemma adequacy_check_ok c st n :
  fresh st -> sql_generation_error st = None ->
  sql_generation_attempts st = 0 ->
  Permutation (selected_tool_order st) [0; 1; 2] ->
  current_tool_index st < 3 ->
  match adequacy_check c st n with
  | (Ok st', n') =>
      Inv (should_continue_planner st') st' /\
      measure (should_continue_planner st') st' < 10 + (3 - current_tool_index st)
  | (Raise e, _) => False
  end.
Proof.
  intros [F1 [F2 F3]] GE AT P LT.
  destruct (perm3_nth _ _ P LT) as [x [Hx Hx3]].
  destruct (category_defined x Hx3) as [cat Hcat].
  unfold adequacy_check. rewrite Hx, Hcat.
  assert (L : length (selected_tool_order st) = 3)
    by (apply Permutation_length in P; exact P).
  unfold should_continue_planner; state_simpl.
  rewrite F1, L.
  destruct (ge_0_8 _); state_simpl.
  - inv_split. rewrite AT.
    repeat split; auto; try discriminate; lia.
  - destruct (Nat.ltb_spec (current_tool_index st + 1) 3).
    + inv_split. repeat split; auto; try lia.
    + inv_split. repeat split; auto; lia.
Qed.

Lemma planner_step_ok libs c st n :
  Inv node_planner st -> step_ok libs c node_planner st n.
Proof.
  intros [_ [F [GE [AT O]]]]. unfold step_ok, step, planner_node.
  change (measure node_planner st) with (10 + (3 - current_tool_index st)).
  destruct O as [[E I]|[P I]].
  - pose proof (determine_order_outcome c st n E) as D.
    destruct F as [F1 [F2 F3]].
    inversion D as [response answer G K A N Heq | n1 Heq | response n1 G Heq].
    + unfold should_continue_planner; inv_split.
      rewrite E. repeat split; auto. lia.
    + pose proof (adequacy_check_ok c (fallback_order st) n1) as H.
      rewrite I. destruct (adequacy_check c (fallback_order st) n1) as [[st1|e] n2].
      * apply H; unfold fresh; state_simpl; auto.
      * exfalso. apply H; unfold fresh; state_simpl; auto.
    + set (st0 := record_order _ response st).
      pose proof (adequacy_check_ok c st0 n1) as H.
      rewrite I. destruct (adequacy_check c st0 n1) as [[st1|e] n2].
      * apply H; unfold st0, fresh; state_simpl; auto.
        apply category_order_spec_perm.
      * exfalso. apply H; unfold st0, fresh; state_simpl; auto.
        apply category_order_spec_perm.
  - unfold determine_order.
    destruct (selected_tool_order st) as [|i0 rest] eqn:E.
    + apply Permutation_length in P. discriminate.
    + pose proof (adequacy_check_ok c st n) as H. rewrite E in H.
      destruct (adequacy_check c st n) as [[st1|e] n2].
      * apply H; auto.
      * exfalso. apply H; auto.
Qed.

Lemma generation_step_ok libs c st n :
  Inv node_sql_generation st -> step_ok libs c node_sql_generation st n.
Proof.
  intros [OI [[F1 [F2 F3]] [T A]]]. unfold step_ok, step, sql_generation_node.
  destruct (selected_tables st) as [t|] eqn:ET; [|congruence].
  destruct (bind (generate c n) strip_method) as [sql_query|e].
  - destruct (validate_sql_syntax libs (clean_sql sql_query)) eqn:V;
      cbn [negb]; unfold should_retry_sql; state_simpl.
    + inv_split. repeat split; auto; try lia; try congruence.
      exists (clean_sql sql_query). split; [reflexivity|].
      eapply validate_nonempty; eauto.
    + destruct (Nat.ltb_spec (sql_generation_attempts st + 1) 2);
        inv_split; repeat split; auto; try lia; congruence.
  - unfold should_retry_sql; state_simpl.
    destruct (Nat.ltb_spec (sql_generation_attempts st + 1) 2);
      inv_split; repeat split; auto; try lia; congruence.
Qed.

Lemma parse_judgment_feedback libs r v :
  parse_judgment libs r = inr (Ok v) ->
  exists fb, dict_get (as_dict v) "feedback" = Some fb.
Proof.
  unfold parse_judgment. destruct r as [[text|]|e]; try discriminate.
  destruct (json_loads libs _) as [ev|]; [|discriminate].
  intros H. injection H as H.
  repeat match type of H with
         | bind ?x _ = Ok _ => destruct x eqn:?; simpl in H; [|discriminate]
         end.
  injection H as <-.
  match goal with
  | K : getitem ev "feedback" = Ok ?a |- _ => exists a; revert K
  end.
  unfold getitem. destruct ev; try discriminate. simpl.
  destruct (dict_get kv "feedback"); [congruence | discriminate].
Qed.

Lemma evaluation_step_ok libs c st n :
  Inv node_evaluation st -> step_ok libs c node_evaluation st n.
Proof.
  intros [OI [[F1 [F2 F3]] [ST [A [s [G T]]]]]].
  unfold step_ok, step, evaluation_node.
  destruct (parse_judgment libs (generate c n)) as [[]|[v|e]] eqn:PJ.
  - unfold should_regenerate_sql; state_simpl.
    inv_split. repeat split; auto; try lia.
    apply Succeeded; state_simpl; [rewrite G; exact T | exact F3].
  - destruct (parse_judgment_feedback _ _ _ PJ) as [fb FB].
    destruct (match dict_get (as_dict v) "passed" with
              | Some v0 => truthy v0 | None => false end) eqn:PASS.
    + unfold should_regenerate_sql; state_simpl.
      inv_split. repeat split; auto; try lia.
      apply Succeeded; state_simpl; [rewrite G; exact T | exact F3].
    + unfold should_regenerate_sql; state_simpl. rewrite F1. cbn [negb].
      destruct (Nat.leb_spec 4 (sql_generation_attempts st)).
      * rewrite FB. destruct fb; try reflexivity.
        inv_split. repeat split; auto; try lia.
        apply ForcedAcceptance with (feedback := s0); state_simpl; auto.
        rewrite G; exact T.
      * inv_split. repeat split; auto; try lia.
  - unfold should_regenerate_sql; state_simpl.
    inv_split. repeat split; auto; try lia.
    apply Succeeded; state_simpl; [rewrite G; exact T | exact F3].
Qed.

Lemma error_step_ok libs c st n :
  Inv node_error st -> step_ok libs c node_error st n.
Proof.
  intros [OI [F E]]. unfold step_ok, step, error_node.
  destruct (truthy_opt (error_message st)) eqn:T; cbn [negb]; state_simpl.
  - inv_split. repeat split; auto. apply Failed; assumption.
  - destruct (truthy_opt (sql_generation_error st)); state_simpl;
      inv_split; repeat split; auto; apply Failed; state_simpl; auto.
Qed.

Lemma step_sound libs c nd st n :
  Inv nd st -> nd <> END -> step_ok libs c nd st n.
Proof.
  intros I NE. destruct nd.
  - apply planner_step_ok, I.
  - apply generation_step_ok, I.
  - apply evaluation_step_ok, I.
  - apply error_step_ok, I.
  - congruence.
Qed.

Lemma node_eq_END (nd : node) : nd = END \/ nd <> END.
Proof. destruct nd; auto; right; discriminate. Qed.

Lemma invoke_from_unfold libs c fuel nd st n :
  nd <> END ->
  invoke_from libs c (S fuel) nd st n =
  match step libs c nd st n with
  | Ok (nd', st', n') => invoke_from libs c fuel nd' st' n'
  | Raise e => Raise e
  end.
Proof. destruct nd; intros H; try reflexivity. congruence. Qed.

Lemma invoke_from_enough libs c fuel : forall nd st n,
  Inv nd st -> measure nd st <= fuel ->
  invoke_from libs c fuel nd st n =
  invoke_from libs c (measure nd st) nd st n.
Proof.
  induction fuel as [fuel IH] using lt_wf_ind. intros nd st n I M.
  destruct (node_eq_END nd) as [->|NE]; [destruct fuel; reflexivity|].
  pose proof (step_sound libs c nd st n I NE) as S. unfold step_ok in S.
  destruct (measure nd st) as [|m] eqn:Em.
  - destruct (step libs c nd st n) as [[[nd1 st1] n1]|e].
    + lia.
    + destruct nd; simpl in Em; try lia; congruence.
  - destruct fuel as [|fuel]; [lia|].
    rewrite !invoke_from_unfold by exact NE.
    destruct (step libs c nd st n) as [[[nd1 st1] n1]|e]; [|reflexivity].
    destruct S as [I1 M1].
    rewrite (IH fuel ltac:(lia) nd1 st1 n1 I1 ltac:(lia)).
    rewrite (IH m ltac:(lia) nd1 st1 n1 I1 ltac:(lia)).
    reflexivity.
Qed.

Lemma initial_inv q : Inv node_planner (initial_state q).
Proof.
  inv_split. repeat split; auto.
Qed.

(** Every configuration of a run satisfies the invariant, and the result of
    the run is the result of resuming from it. *)
Lemma run_to_sound libs c q k : forall nd st n,
  run_to libs c q k = Ok (nd, st, n) ->
  Inv nd st /\
  invoke libs c q = invoke_from libs c (measure nd st) nd st n.
Proof.
  induction k as [|k IH]; intros nd st n R.
  - injection R as <- <- <-. split; [apply initial_inv|].
    unfold invoke. apply invoke_from_enough; [apply initial_inv|].
    unfold measure, recursion_limit; state_simpl. lia.
  - cbn [run_to] in R.
    destruct (run_to libs c q k) as [[[nd0 st0] n0]|e] eqn:R0; [|discriminate].
    destruct (IH _ _ _ eq_refl) as [I0 E0].
    destruct (node_eq_END nd0) as [->|NE].
    + cbn [step] in R. injection R as <- <- <-. split; assumption.
    + pose proof (step_sound libs c nd0 st0 n0 I0 NE) as S.
      unfold step_ok in S. rewrite R in S. destruct S as [I M].
      split; [exact I|]. rewrite E0.
      destruct (measure nd0 st0) as [|m] eqn:Em; [lia|].
      rewrite invoke_from_unfold by exact NE. rewrite R.
      apply invoke_from_enough; [exact I | lia].
Qed.

Lemma run_to_END libs c q k st n :
  run_to libs c q k = Ok (END, st, n) -> invoke libs c q = Ok st.
Proof.
  intros R. apply run_to_sound in R. destruct R as [_ E]. exact E.
Qed.

(** A run never exhausts the recursion limit: it ends in a complete state,
    or with the error raised by the edge function of the evaluation node. *)
Lemma invoke_from_total libs c fuel : forall nd st n,
  Inv nd st -> measure nd st <= fuel ->
  match invoke_from libs c fuel nd st n with
  | Ok st' => Inv END st'
  | Raise e => e = crash
  end.
Proof.
  induction fuel as [|fuel IH]; intros nd st n I M.
  - destruct nd; simpl in M; try lia. exact I.
  - destruct (node_eq_END nd) as [->|NE]; [exact I|].
    rewrite invoke_from_unfold by exact NE.
    pose proof (step_sound libs c nd st n I NE) as S. unfold step_ok in S.
    destruct (step libs c nd st n) as [[[nd1 st1] n1]|e]; [|exact S].
    destruct S as [I1 M1]. apply IH; [exact I1 | lia].
Qed.

Lemma invoke_total libs c q :
  match invoke libs c q with
  | Ok st => Inv END st
  | Raise e => e = crash
  end.
Proof.
  unfold invoke. apply invoke_from_total; [apply initial_inv|].
  unfold measure, recursion_limit; state_simpl. lia.
Qed.

(** ** C4 *)

(** C4, as stated, fails: when both backends fail, the caller receives the
    fallback's own error, which does not carry the cause of the primary's
    failure. *)
Lemma C4_both_causes_counterexample :
  generate Example.both_down 0 = Raise (APIError "fallback unauthorized") /\
  ~ carries_both (generate Example.both_down 0)
      "primary timeout" "fallback unauthorized".
Proof.
  split; [reflexivity|].
  intros [e [E [H1 _]]]. vm_compute in E. injection E as <-.
  simpl in H1. destruct H1 as [H1|[]]. discriminate.
Qed.

(** C4, amended: a primary backend that is not configured is skipped and
    the fallback is the only backend attempted; with neither configured the
    call raises without attempting any backend; when both fail, the error
    raised by the fallback is propagated unchanged and the primary's cause
    is dropped.  The same holds for [generate_with_tools]. *)
Theorem C4_failover (c : client) (n : nat) :
  (primary_client c = None ->
   forall f, mistral_api_key c = Some f ->
     generate_log c n =
       ([Mistral], match f n with Ok m => Ok (content m) | Raise e => Raise e end) /\
     generate_with_tools_log c n =
       ([Mistral], match f n with Ok m => Ok (to_response m) | Raise e => Raise e end)) /\
  (primary_client c = None -> mistral_api_key c = None ->
     generate_log c n = ([], Raise (ValueError both_failed_msg)) /\
     generate_with_tools_log c n = ([], Raise (ValueError both_failed_msg))) /\
  (forall p f e1 e2,
     primary_client c = Some p -> mistral_api_key c = Some f ->
     p n = Raise e1 -> f n = Raise e2 ->
     generate_log c n = ([Primary; Mistral], Raise e2) /\
     generate_with_tools_log c n = ([Primary; Mistral], Raise e2)).
Proof.
  unfold generate_log, generate_with_tools_log. repeat split.
  - rewrite H, H0. destruct (f n); reflexivity.
  - rewrite H, H0. destruct (f n); reflexivity.
  - rewrite H, H0. reflexivity.
  - rewrite H, H0. reflexivity.
  - rewrite H, H0, H1, H2. reflexivity.
  - rewrite H, H0, H1, H2. reflexivity.
Qed.

Lemma C4_failover_witness :
  generate_log Example.fallback_only 1 = ([Mistral], Ok (Some "0.9")) /\
  generate_log Example.unconfigured 0 = ([], Raise (ValueError both_failed_msg)) /\
  generate_log Example.both_down 0 =
    ([Primary; Mistral], Raise (APIError "fallback unauthorized")).
Proof.
  split; [|split].
  - apply (proj1 (proj1 (C4_failover Example.fallback_only 1) eq_refl
                    (Example.scripted Example.routed) eq_refl)).
  - apply (proj1 (proj2 (C4_failover Example.unconfigured 0)));
      reflexivity.
  - apply (proj2 (proj2 (C4_failover Example.both_down 0))
             (fun _ => Raise (APIError "primary timeout"))
             (fun _ => Raise (APIError "fallback unauthorized"))
             (APIError "primary timeout")); reflexivity.
Defined.

(** ** C5 *)

Lemma determine_order_decided c st n st1 n1 :
  selected_tool_order st = [] ->
  determine_order c st n = (Continue st1, n1) ->
  Permutation (selected_tool_order st1) [0; 1; 2] /\
  forall response, generate_with_tools c n = Ok response ->
    selected_tool_order st1 = category_order_spec (resp_tool_calls response).
Proof.
  intros E D. unfold determine_order in D. rewrite E in D.
  destruct (generate_with_tools c n) as [response|e] eqn:G.
  - rewrite extract_tool_order_spec in D.
    assert (HS : forall order,
      order = category_order_spec (resp_tool_calls response) ->
      selected_tool_order st1 = order ->
      Permutation (selected_tool_order st1) [0; 1; 2] /\
      forall response0, Ok response = Ok response0 ->
        selected_tool_order st1 = category_order_spec (resp_tool_calls response0)).
    { intros order -> ->. split; [apply category_order_spec_perm|].
      intros r0 H. injection H as <-. reflexivity. }
    destruct (first_occurrences (known_indices (resp_tool_calls response)))
      as [|i invoked] eqn:F.
    + apply (HS [0; 1; 2]).
      * unfold category_order_spec. rewrite F. reflexivity.
      * destruct (bind (generate c (S n)) strip_method) as [answer|e].
        -- destruct (contains "NO" (upper answer)); [discriminate|].
           injection D as <- <-. reflexivity.
        -- injection D as <- <-. reflexivity.
    + apply (HS (add_remaining (i :: invoked))).
      * rewrite add_remaining_spec. unfold category_order_spec. rewrite F.
        reflexivity.
      * injection D as <- <-. reflexivity.
  - injection D as <- <-. split; [apply Permutation_refl | discriminate].
Qed.

(** C5: whenever the planner computes a category order, the order is a
    permutation of all category identifiers; it is the invoked tools,
    de-duplicated keeping first occurrences, followed by the categories not
    mentioned in natural order; and in every configuration of every run the
    order is either still undecided or such a permutation. *)
Theorem C5_category_order_permutation :
  (forall c st n st1 n1,
     selected_tool_order st = [] ->
     determine_order c st n = (Continue st1, n1) ->
     Permutation (selected_tool_order st1) [0; 1; 2] /\
     NoDup (selected_tool_order st1) /\
     forall response, generate_with_tools c n = Ok response ->
       selected_tool_order st1 =
         first_occurrences (known_indices (resp_tool_calls response)) ++
         not_mentioned (first_occurrences (known_indices (resp_tool_calls response)))) /\
  (forall libs c q k nd st n,
     run_to libs c q k = Ok (nd, st, n) ->
     selected_tool_order st = [] \/
     Permutation (selected_tool_order st) [0; 1; 2]).
Proof.
  split.
  - intros c st n st1 n1 E D.
    destruct (determine_order_decided c st n st1 n1 E D) as [P HS].
    repeat split; [exact P | | exact HS].
    apply (Permutation_NoDup (Permutation_sym P)).
    repeat constructor; simpl; intuition lia.
  - intros libs c q k nd st n R.
    apply run_to_sound in R. destruct R as [[O _] _]. exact O.
Qed.

Lemma C5_category_order_permutation_witness :
  exists st1,
    determine_order Example.reordered (initial_state "q") 0
    = (Continue st1, 1) /\
    selected_tool_order st1 = [2; 0; 1] /\
    Permutation (selected_tool_order st1) [0; 1; 2].
Proof.
  eexists. split; [reflexivity|]. split; [reflexivity|].
  exact (proj1 (proj1 C5_category_order_permutation Example.reordered
                  (initial_state "q") 0 _ 1 eq_refl eq_refl)).
Defined.

(** ** C10 *)

(** C10: when the provider call of a generation pass raises, the attempt
    counter is incremented, the generation error is set and the validity
    flag cleared, and nothing else changes: [sql_history] and the previous
    candidate are as before.  Some run ends with fewer entries in its audit
    trail than attempts. *)
Theorem C10_generation_failure_frame :
  (forall libs c st n e,
     selected_tables st <> None ->
     generate c n = Raise e ->
     exists st1,
       sql_generation_node libs c st n = (Ok st1, S n) /\
       st1 = set_sql_generation_attempts (sql_generation_attempts st + 1)
               (set_sql_valid false
                  (set_sql_generation_error
                     (Some ("SQL generation error: " ++ exn_str e)%string) st)) /\
       sql_generation_attempts st1 = sql_generation_attempts st + 1 /\
       sql_valid st1 = false /\
       sql_history st1 = sql_history st /\
       generated_sql st1 = generated_sql st) /\
  (exists libs c q st,
     invoke libs c q = Ok st /\
     length (sql_history st) < sql_generation_attempts st).
Proof.
  split.
  - intros libs c st n e T G. eexists. split; [|repeat split].
    unfold sql_generation_node. rewrite G.
    destruct (selected_tables st); [reflexivity | congruence].
  - exists Example.libs, (Example.primary_only Example.routed), "q".
    eexists. split; [vm_compute; reflexivity|]. vm_compute. lia.
Qed.

Lemma C10_generation_failure_frame_witness :
  exists st1,
    sql_generation_node Example.libs Example.unconfigured
      (set_selected_tables (Some CATEGORY_1_TABLES) (initial_state "q")) 0
    = (Ok st1, 1) /\
    sql_generation_attempts st1 = 1 /\ sql_history st1 = [] /\
    generated_sql st1 = None.
Proof.
  destruct (proj1 C10_generation_failure_frame Example.libs Example.unconfigured
              (set_selected_tables (Some CATEGORY_1_TABLES) (initial_state "q"))
              0 (ValueError both_failed_msg))
    as [st1 [E [_ [A [_ [H G]]]]]].
  - discriminate.
  - reflexivity.
  - exists st1. repeat split; assumption.
Defined.

Lemma run_to_step libs c q k nd st n :
  run_to libs c q k = Ok (nd, st, n) ->
  run_to libs c q (S k) = step libs c nd st n.
Proof. intros R. cbn [run_to]. rewrite R. reflexivity. Qed.

Lemma run_result libs c q st :
  invoke libs c q = Ok st ->
  run_nlp_to_sql libs c q = Ok (format_result st).
Proof. intros I. unfold run_nlp_to_sql. rewrite I. reflexivity. Qed.

(** A run that reaches the error node ends there. *)
Lemma run_through_error libs c q k st n :
  run_to libs c q k = Ok (node_error, st, n) ->
  invoke libs c q = Ok (error_node st).
Proof.
  intros R. apply (run_to_END libs c q (S k) _ n).
  rewrite (run_to_step _ _ _ _ _ _ _ R). reflexivity.
Qed.

(** ** C6 *)



(** ** C7 *)

Lemma default_score_inadequate : ge_0_8 (1 # 2) = false.
Proof. vm_compute. reflexivity. Qed.





(** ** C8 *)

(** C8: in every run, a candidate that fails validation increments the
    attempt counter; generation runs again while the counter is below 2,
    and once it has reached 2 the run ends in error, with success false and
    the syntax failure as its error. *)
Theorem C8_syntax_retry libs c q k st n text :
  run_to libs c q k = Ok (node_sql_generation, st, n) ->
  generate c n = Ok (Some text) ->
  validate_sql_syntax libs (clean_sql (strip text)) = false ->
  exists st1,
    step libs c node_sql_generation st n = Ok (should_retry_sql st1, st1, S n) /\
    sql_generation_attempts st1 = sql_generation_attempts st + 1 /\
    sql_history st1 = sql_history st ++ [clean_sql (strip text)] /\
    (sql_generation_attempts st1 < 2 ->
       should_retry_sql st1 = node_sql_generation) /\
    (2 <= sql_generation_attempts st1 ->
       should_retry_sql st1 = node_error /\
       exists out,
         run_nlp_to_sql libs c q = Ok out /\
         success out = false /\
         error out = Some syntax_failure).
Proof.
  intros R G V.
  destruct (run_to_sound _ _ _ _ _ _ _ R) as [[_ [[F1 [F2 F3]] [T A]]] _].
  assert (N : sql_generation_node libs c st n =
    (Ok (set_sql_generation_error (Some "SQL syntax validation failed")
           (set_sql_history (sql_history st ++ [clean_sql (strip text)])
              (set_sql_generation_attempts (sql_generation_attempts st + 1)
                 (set_sql_valid false
                    (set_generated_sql (Some (clean_sql (strip text))) st))))),
     S n)).
  { unfold sql_generation_node. rewrite G. cbn [bind strip_method]. rewrite V.
    destruct (selected_tables st); [reflexivity | congruence]. }
  eexists. split; [cbn [step]; rewrite N; reflexivity|].
  state_simpl. split; [reflexivity|]. split; [reflexivity|].
  unfold should_retry_sql; state_simpl. split; intros L.
  - apply Nat.ltb_lt in L. rewrite L. reflexivity.
  - assert (L' : (sql_generation_attempts st + 1 <? 2) = false)
      by (apply Nat.ltb_ge; exact L).
    rewrite L'. split; [reflexivity|].
    match goal with
    | |- context [run_nlp_to_sql] => idtac
    end.
    assert (R1 : run_to libs c q (S k) =
      Ok (node_error,
          set_sql_generation_error (Some "SQL syntax validation failed")
            (set_sql_history (sql_history st ++ [clean_sql (strip text)])
               (set_sql_generation_attempts (sql_generation_attempts st + 1)
                  (set_sql_valid false
                     (set_generated_sql (Some (clean_sql (strip text))) st)))),
          S n)).
    { rewrite (run_to_step _ _ _ _ _ _ _ R). cbn [step]. rewrite N.
      unfold should_retry_sql; state_simpl. rewrite L'. reflexivity. }
    pose proof (run_through_error _ _ _ _ _ _ R1) as I.
    rewrite (run_result _ _ _ _ I). eexists. split; [reflexivity|].
    unfold format_result, error_node; state_simpl. rewrite F3.
    cbn [truthy_opt truthy_str negb]. state_simpl. rewrite F2.
    split; reflexivity.
Qed.

Lemma C8_syntax_retry_witness :
  exists out,
    run_nlp_to_sql Example.libs Example.two_rejections "q" = Ok out /\
    success out = false /\ error out = Some syntax_failure.
Proof.
  destruct (C8_syntax_retry Example.libs Example.two_rejections "q" 2
              Example.after_first_rejection 3 "DROP TABLE customers;"
              ltac:(vm_compute; reflexivity) ltac:(vm_compute; reflexivity)
              ltac:(vm_compute; reflexivity))
    as [st1 [_ [A [_ [_ H]]]]].
  apply H. rewrite A. vm_compute. apply le_n.
Defined.

(** ** C9 *)

(** C9: in every run, when the text of the evaluation judgment cannot be
    parsed as JSON the run does not fail: the current candidate becomes
    [final_sql], the run is complete, the result has success true, and the
    feedback of the evaluation records the automatic approval. *)
Theorem C9_parse_failure_auto_approves libs c q k st n text :
  run_to libs c q k = Ok (node_evaluation, st, n) ->
  generate c n = Ok (Some text) ->
  json_loads libs (match json_search text with
                   | Some m => m
                   | None => text
                   end) = None ->
  exists fin out,
    invoke libs c q = Ok fin /\
    workflow_complete fin = true /\
    final_sql fin = generated_sql st /\
    error_message fin = None /\
    run_nlp_to_sql libs c q = Ok out /\
    success out = true /\
    sql out = generated_sql st /\
    dict_get (evaluation out) "feedback" = Some (JStr parse_failure_feedback).
Proof.
  intros R G J.
  destruct (run_to_sound _ _ _ _ _ _ _ R)
    as [[_ [[F1 [F2 F3]] [ST [A [s [GS T]]]]]] _].
  assert (R1 : run_to libs c q (S k) =
    Ok (END,
        set_workflow_complete true
          (set_final_sql (generated_sql st)
             (set_evaluation_result (auto_approved parse_failure_feedback) st)),
        S n)).
  { rewrite (run_to_step _ _ _ _ _ _ _ R). cbn [step].
    unfold evaluation_node, parse_judgment. rewrite G, J. reflexivity. }
  pose proof (run_to_END _ _ _ _ _ _ R1) as I.
  do 2 eexists. split; [exact I|]. state_simpl.
  split; [reflexivity|]. split; [reflexivity|]. split; [exact F3|].
  rewrite (run_result _ _ _ _ I). split; [reflexivity|].
  unfold format_result; state_simpl. rewrite GS. cbn [truthy_opt]. rewrite T.
  repeat split.
Qed.

Lemma C9_parse_failure_auto_approves_witness :
  exists out,
    run_nlp_to_sql Example.libs Example.unparsable_judgment "q" = Ok out /\
    success out = true /\ sql out = Some "SELECT 1".
Proof.
  destruct (C9_parse_failure_auto_approves Example.libs
              Example.unparsable_judgment "q" 2 Example.after_candidate 3
              "looks good" ltac:(vm_compute; reflexivity)
              ltac:(vm_compute; reflexivity) ltac:(vm_compute; reflexivity))
    as [fin [out [_ [_ [_ [_ [R [S Q]]]]]]]].
  exists out. destruct Q as [Q _]. repeat split; assumption.
Defined.

(** ** C1 *)

Lemma truthy_is_set o : truthy_opt o = true -> is_set o = true.
Proof. destruct o; [reflexivity | discriminate]. Qed.





(** ** C2 *)


(** ** C3 *)

(** C3, as stated, fails: when both backends fail on the evaluation call,
    the run still returns success. *)
Lemma C3_provider_failure_counterexample :
  run_to Example.libs Example.down_at_evaluation "q" 2 =
    Ok (node_evaluation, Example.after_candidate, 3) /\
  generate Example.down_at_evaluation 3 =
    Raise (APIError "fallback unauthorized") /\
  ~ fatal (run_nlp_to_sql Example.libs Example.down_at_evaluation "q").
Proof.
  split; [vm_compute; reflexivity|]. split; [vm_compute; reflexivity|].
  vm_compute. discriminate.
Qed.

(** C3, amended: a failure of the provider client is absorbed at every call
    site.  In the ordering call and in the scope classification it becomes
    the fallback order; in the adequacy call the default score 0.5, which
    is inadequate; in generation it is recorded as the generation error and
    counted as an attempt, retried while the counter is below 2; in
    evaluation it becomes an automatic approval of the current candidate,
    and the run returns success. *)
Theorem C3_provider_failure_absorbed :
  (forall c st n e,
     selected_tool_order st = [] ->
     generate_with_tools c n = Raise e ->
     determine_order c st n = (Continue (fallback_order st), S n) /\
     selected_tool_order (fallback_order st) = [0; 1; 2]) /\
  (forall c st n response e,
     selected_tool_order st = [] ->
     generate_with_tools c n = Ok response ->
     known_indices (resp_tool_calls response) = [] ->
     generate c (S n) = Raise e ->
     determine_order c st n = (Continue (fallback_order st), S (S n))) /\
  (forall c n e,
     generate c n = Raise e ->
     relevance_score_of (generate c n) = (1 # 2)%Q /\
     ge_0_8 (relevance_score_of (generate c n)) = false) /\
  (forall libs c st n e,
     selected_tables st <> None ->
     generate c n = Raise e ->
     exists st1,
       sql_generation_node libs c st n = (Ok st1, S n) /\
       sql_generation_error st1 =
         Some ("SQL generation error: " ++ exn_str e)%string /\
       sql_generation_attempts st1 = sql_generation_attempts st + 1 /\
       should_retry_sql st1 =
         if sql_generation_attempts st + 1 <? 2
         then node_sql_generation else node_error) /\
  (forall libs c st n e,
     generate c n = Raise e ->
     exists st1,
       evaluation_node libs c st n = (st1, S n) /\
       final_sql st1 = generated_sql st /\
       workflow_complete st1 = true /\
       dict_get (evaluation_result st1) "feedback" =
         Some (JStr ("Auto-approved due to error: " ++ exn_str e)%string) /\
       should_regenerate_sql st1 = Ok (END, st1)) /\
  (forall libs c q k st n e,
     run_to libs c q k = Ok (node_evaluation, st, n) ->
     generate c n = Raise e ->
     exists out,
       run_nlp_to_sql libs c q = Ok out /\
       success out = true /\ sql out = generated_sql st).
Proof.
  repeat apply conj.
  - intros c st n e E G. unfold determine_order. rewrite E, G. split; reflexivity.
  - intros c st n response e E G K F. unfold determine_order.
    rewrite E, G, extract_tool_order_spec, K, F. reflexivity.
  - intros c n e G. rewrite G. split; [reflexivity | vm_compute; reflexivity].
  - intros libs c st n e T G. unfold sql_generation_node. rewrite G.
    destruct (selected_tables st); [|congruence].
    eexists. split; [reflexivity|]. repeat split.
  - intros libs c st n e G. unfold evaluation_node, parse_judgment. rewrite G.
    eexists. split; [reflexivity|]. repeat split.
  - intros libs c q k st n e R G.
    destruct (run_to_sound _ _ _ _ _ _ _ R)
      as [[_ [[F1 [F2 F3]] [ST [A [s [GS T]]]]]] _].
    assert (R1 : run_to libs c q (S k) =
      Ok (END,
          set_workflow_complete true
            (set_final_sql (generated_sql st)
               (set_evaluation_result
                  (auto_approved ("Auto-approved due to error: " ++ exn_str e)%string)
                  st)),
          S n)).
    { rewrite (run_to_step _ _ _ _ _ _ _ R). cbn [step].
      unfold evaluation_node, parse_judgment. rewrite G. reflexivity. }
    pose proof (run_to_END _ _ _ _ _ _ R1) as I.
    rewrite (run_result _ _ _ _ I). eexists. split; [reflexivity|].
    unfold format_result; state_simpl. rewrite GS. cbn [truthy_opt]. rewrite T.
    split; reflexivity.
Qed.

Lemma C3_provider_failure_absorbed_witness :
  exists out,
    run_nlp_to_sql Example.libs Example.down_at_evaluation "q" = Ok out /\
    success out = true /\ sql out = Some "SELECT 1".
Proof.
  destruct (proj2 (proj2 (proj2 (proj2 (proj2 C3_provider_failure_absorbed))))
              Example.libs Example.down_at_evaluation "q" 2
              Example.after_candidate 3 (APIError "fallback unauthorized")
              ltac:(vm_compute; reflexivity) ltac:(vm_compute; reflexivity))
    as [out [R [S Q]]].
  exists out. repeat split; assumption.
Defined.

(** * Further properties of the code *)

(** ** Bounds on a run *)

Lemma firstn_snoc {A} (l : list A) i x :
  nth_error l i = Some x -> firstn (i + 1) l = firstn i l ++ [x].
Proof.
  revert i. induction l as [|y l IH]; intros [|i] H; simpl in *;
    try discriminate.
  - injection H as ->. destruct l; reflexivity.
  - f_equal. apply IH. exact H.
Qed.

Lemma adequacy_check_audit libs c st n st1 n1 :
  fresh st -> sql_generation_attempts st = 0 -> sql_history st = [] ->
  sql_valid st = false ->
  Permutation (selected_tool_order st) [0; 1; 2] ->
  current_tool_index st < 3 ->
  tables_satisfactory st = false ->
  tools_attempted st = judged st ->
  n <= 2 + current_tool_index st ->
  adequacy_check c st n = (Ok st1, n1) ->
  audit libs (should_continue_planner st1) st1 n1.
Proof.
  intros [F1 [F2 F3]] AT H V P LT TS TA N A.
  destruct (perm3_nth _ _ P LT) as [x [Hx Hx3]].
  destruct (category_defined x Hx3) as [cat Hcat].
  unfold adequacy_check in A. rewrite Hx, Hcat in A.
  assert (L : length (selected_tool_order st) = 3)
    by (apply Permutation_length in P; exact P).
  injection A as <- <-.
  unfold audit, judged, call_bound, should_continue_planner; state_simpl.
  rewrite F1, L, AT, H, V, F2, TA. unfold judged. rewrite TS, Nat.add_0_r.
  destruct (ge_0_8 _); state_simpl.
  - rewrite Nat.add_0_r. repeat split; auto; try lia; try discriminate.
    symmetry. apply firstn_snoc. exact Hx.
  - rewrite Nat.add_0_r.
    destruct (Nat.ltb_spec (current_tool_index st + 1) 3);
      destruct (selected_tool_order st) eqn:E; try discriminate;
      repeat split; auto; try lia; try discriminate;
      symmetry; rewrite <- E in *; apply firstn_snoc; exact Hx.
Qed.

Lemma audit_initial libs q : audit libs node_planner (initial_state q) 0.
Proof.
  unfold audit, judged, call_bound; state_simpl.
  repeat split; auto; discriminate.
Qed.

Lemma planner_step_audit libs c st n nd1 st1 n1 :
  Inv node_planner st -> audit libs node_planner st n ->
  step libs c node_planner st n = Ok (nd1, st1, n1) ->
  audit libs nd1 st1 n1.
Proof.
  intros [_ [F [GE [AT O]]]] [A4 [HL [TA [_ [_ [N PL]]]]]] HS.
  destruct PL as [H [V TS]].
  cbn [step] in HS. unfold planner_node in HS.
  destruct O as [[E I]|[P I]].
  - pose proof (determine_order_outcome c st n E) as D.
    unfold call_bound in N. rewrite E in N.
    inversion D as [response answer G K A NO Heq | n2 Heq | response n2 G Heq];
      rewrite <- Heq in HS; cbv beta iota in HS.
    + injection HS as <- <- <-.
      unfold audit, judged, call_bound, should_continue_planner; state_simpl.
      rewrite AT, H, V, TS, E, I. destruct F as [_ [F2 _]].
      repeat split; auto; try lia; try discriminate.
      rewrite TA. unfold judged. rewrite E. destruct (_ + _); reflexivity.
    + assert (B : n2 <= 2).
      { unfold determine_order in Heq. rewrite E in Heq.
        repeat match type of Heq with
               | context [match ?x with _ => _ end] => destruct x
               end; try discriminate; inversion Heq; lia. }
      destruct (adequacy_check c (fallback_order st) n2) as [[st2|e] n3] eqn:A;
        [|discriminate].
      injection HS as <- <- <-.
      eapply adequacy_check_audit; [ | | | | | | | | | exact A];
        unfold fresh, judged in *; state_simpl; auto; try lia;
        rewrite TS; reflexivity.
    + assert (B : n2 <= 2).
      { unfold determine_order in Heq. rewrite E in Heq.
        repeat match type of Heq with
               | context [match ?x with _ => _ end] => destruct x
               end; try discriminate; inversion Heq; lia. }
      set (st0 := record_order _ response st) in *.
      destruct (adequacy_check c st0 n2) as [[st2|e] n3] eqn:A; [|discriminate].
      injection HS as <- <- <-.
      eapply adequacy_check_audit; [ | | | | | | | | | exact A];
        unfold st0, fresh, judged in *; state_simpl; auto; try lia;
        try (rewrite TS; reflexivity).
      apply category_order_spec_perm.
  - unfold determine_order in HS.
    destruct (selected_tool_order st) as [|i0 rest] eqn:E.
    + apply Permutation_length in P. discriminate.
    + destruct (adequacy_check c st n) as [[st2|e] n3] eqn:A; [|discriminate].
      injection HS as <- <- <-.
      eapply adequacy_check_audit; [ | | | | | | | | | exact A]; auto.
      * rewrite E. exact P.
      * unfold call_bound in N. rewrite E in N. exact N.
Qed.

Lemma generation_step_audit libs c st n nd1 st1 n1 :
  Inv node_sql_generation st -> audit libs node_sql_generation st n ->
  step libs c node_sql_generation st n = Ok (nd1, st1, n1) ->
  audit libs nd1 st1 n1.
Proof.
  intros [_ [[F1 [F2 F3]] [T A]]] [A4 [HL [TA [_ [_ [N _]]]]]] HS.
  cbn [step] in HS. unfold sql_generation_node in HS.
  destruct (selected_tables st) as [t|]; [|congruence].
  destruct (bind (generate c n) strip_method) as [sql_query|e].
  - destruct (validate_sql_syntax libs (clean_sql sql_query)) eqn:V;
      cbn [negb] in HS; injection HS as <- <- <-;
      unfold audit, judged, call_bound, should_retry_sql in *; state_simpl;
      rewrite ?length_app; cbn [length].
    + repeat split; auto; try lia; try discriminate.
      intros _. exists (clean_sql sql_query), (sql_history st).
      repeat split; auto.
    + destruct (sql_generation_attempts st + 1 <? 2);
        repeat split; auto; try lia; discriminate.
  - injection HS as <- <- <-.
    unfold audit, judged, call_bound, should_retry_sql in *; state_simpl.
    destruct (sql_generation_attempts st + 1 <? 2);
      repeat split; auto; try lia; discriminate.
Qed.

Lemma evaluation_step_audit libs c st n nd1 st1 n1 :
  Inv node_evaluation st -> audit libs node_evaluation st n ->
  step libs c node_evaluation st n = Ok (nd1, st1, n1) ->
  audit libs nd1 st1 n1.
Proof.
  intros [_ [[F1 [F2 F3]] [ST [A [s [G T]]]]]] [A4 [HL [TA [SV [_ [N V]]]]]] HS.
  cbn [step] in HS. unfold evaluation_node in HS.
  destruct (parse_judgment libs (generate c n)) as [[]|[v|e]].
  - unfold should_regenerate_sql in HS; state_simpl_in HS.
    injection HS as <- <- <-.
    unfold audit, judged, call_bound in *; state_simpl.
    repeat split; auto; try lia; discriminate.
  - destruct (match dict_get (as_dict v) "passed" with
              | Some v0 => truthy v0 | None => false end).
    + unfold should_regenerate_sql in HS; state_simpl_in HS.
      injection HS as <- <- <-.
      unfold audit, judged, call_bound in *; state_simpl.
      repeat split; auto; try lia; discriminate.
    + unfold should_regenerate_sql in HS; state_simpl_in HS.
      rewrite F1 in HS. cbn [negb] in HS.
      destruct (4 <=? sql_generation_attempts st).
      * destruct (dict_get (as_dict v) "feedback") as [[]|]; try discriminate.
        injection HS as <- <- <-.
        unfold audit, judged, call_bound in *; state_simpl.
        repeat split; auto; try lia; discriminate.
      * injection HS as <- <- <-.
        unfold audit, judged, call_bound in *; state_simpl.
        repeat split; auto; try lia; discriminate.
  - unfold should_regenerate_sql in HS; state_simpl_in HS.
    injection HS as <- <- <-.
    unfold audit, judged, call_bound in *; state_simpl.
    repeat split; auto; try lia; discriminate.
Qed.

Lemma error_step_audit libs c st n nd1 st1 n1 :
  audit libs node_error st n ->
  step libs c node_error st n = Ok (nd1, st1, n1) ->
  audit libs nd1 st1 n1.
Proof.
  intros [A4 [HL [TA [SV [FS [N _]]]]]] HS.
  cbn [step] in HS. injection HS as <- <- <-.
  unfold error_node.
  destruct (negb (truthy_opt (error_message st)));
    [destruct (truthy_opt (sql_generation_error st))|];
    unfold audit, judged, call_bound in *; state_simpl;
    repeat split; auto; discriminate.
Qed.

Lemma run_to_audit libs c q k : forall nd st n,
  run_to libs c q k = Ok (nd, st, n) -> audit libs nd st n.
Proof.
  induction k as [|k IH]; intros nd st n R.
  - injection R as <- <- <-. apply audit_initial.
  - cbn [run_to] in R.
    destruct (run_to libs c q k) as [[[nd0 st0] n0]|e] eqn:R0; [|discriminate].
    pose proof (IH _ _ _ eq_refl) as A0.
    destruct (run_to_sound _ _ _ _ _ _ _ R0) as [I0 _].
    destruct nd0.
    + exact (planner_step_audit _ _ _ _ _ _ _ I0 A0 R).
    + exact (generation_step_audit _ _ _ _ _ _ _ I0 A0 R).
    + exact (evaluation_step_audit _ _ _ _ _ _ _ I0 A0 R).
    + exact (error_step_audit _ _ _ _ _ _ _ A0 R).
    + cbn [step] in R. injection R as <- <- <-. exact A0.
Qed.

(** A run that returns has reached [END]. *)
Lemma invoke_from_reaches libs c q fuel : forall k nd st n fin,
  run_to libs c q k = Ok (nd, st, n) ->
  invoke_from libs c fuel nd st n = Ok fin ->
  exists k1 n1, run_to libs c q k1 = Ok (END, fin, n1).
Proof.
  induction fuel as [|fuel IH]; intros k nd st n fin R I.
  - destruct nd; try discriminate. injection I as <-. eauto.
  - destruct (node_eq_END nd) as [->|NE].
    + injection I as <-. eauto.
    + rewrite invoke_from_unfold in I by exact NE.
      destruct (step libs c nd st n) as [[[nd1 st1] n1]|e] eqn:HS;
        [|discriminate].
      apply (IH (S k) nd1 st1 n1 fin); [|exact I].
      rewrite (run_to_step _ _ _ _ _ _ _ R). exact HS.
Qed.

Lemma invoke_reaches libs c q fin :
  invoke libs c q = Ok fin ->
  exists k n, run_to libs c q k = Ok (END, fin, n).
Proof.
  unfold invoke. generalize recursion_limit. intros fuel I.
  apply (invoke_from_reaches libs c q fuel 0 node_planner (initial_state q) 0
           fin); [|exact I].
  cbn [run_to]. reflexivity.
Qed.


Lemma run_reaches_END libs c q : forall m k nd st n,
  run_to libs c q k = Ok (nd, st, n) -> measure nd st <= m ->
  exists j, j <= m /\
    match run_to libs c q (k + j) with
    | Ok (nd', _, _) => nd' = END
    | Raise e => e = crash
    end.
Proof.
  induction m as [|m IH]; intros k nd st n R M.
  - exists 0. split; [lia|]. rewrite Nat.add_0_r, R.
    destruct nd; simpl in M; try lia. reflexivity.
  - destruct (node_eq_END nd) as [->|NE].
    + exists 0. split; [lia|]. rewrite Nat.add_0_r, R. reflexivity.
    + destruct (run_to_sound _ _ _ _ _ _ _ R) as [I _].
      pose proof (step_sound libs c nd st n I NE) as HS. unfold step_ok in HS.
      pose proof (run_to_step _ _ _ _ _ _ _ R) as R1.
      destruct (step libs c nd st n) as [[[nd1 st1] n1]|e].
      * destruct HS as [_ M1].
        destruct (IH (S k) nd1 st1 n1 R1 ltac:(lia)) as [j [J H]].
        exists (S j). split; [lia|].
        replace (k + S j) with (S k + j) by lia. exact H.
      * exists 1. split; [lia|].
        replace (k + 1) with (S k) by lia. rewrite R1. exact HS.
Qed.




Lemma invoke_audit libs c q st :
  invoke libs c q = Ok st ->
  Inv END st /\ exists n, audit libs END st n.
Proof.
  intros I. destruct (invoke_reaches _ _ _ _ I) as [k [n R]].
  destruct (run_to_sound _ _ _ _ _ _ _ R) as [V _].
  split; [exact V|]. exists n. exact (run_to_audit _ _ _ _ _ _ _ R).
Qed.

Lemma run_nlp_to_sql_Ok libs c q out :
  run_nlp_to_sql libs c q = Ok out ->
  exists st, invoke libs c q = Ok st /\ out = format_result st.
Proof.
  unfold run_nlp_to_sql. destruct (invoke libs c q) as [st|e];
    [|discriminate].
  intros H. injection H as <-. exists st. split; reflexivity.
Qed.

Lemma format_result_fields st :
  attempts (format_result st) = sql_generation_attempts st /\
  out_sql_history (format_result st) = sql_history st /\
  success (format_result st) = truthy_opt (final_sql st) /\
  tool_order (format_result st) = category_names (selected_tool_order st).
Proof.
  unfold format_result. destruct (truthy_opt (final_sql st)); repeat split.
Qed.

(** X3: the result of a run reports at most 4 generation attempts, and its
    audit trail of candidates is never longer than the number of attempts. *)
Theorem attempts_bound_history libs c q out :
  run_nlp_to_sql libs c q = Ok out ->
  attempts out <= 4 /\ length (out_sql_history out) <= attempts out.
Proof.
  intros R. destruct (run_nlp_to_sql_Ok _ _ _ _ R) as [st [I ->]].
  destruct (invoke_audit _ _ _ _ I) as [_ [n [A4 [HL _]]]].
  destruct (format_result_fields st) as [-> [-> _]]. split; assumption.
Qed.


Lemma attempts_bound_history_witness :
  attempts (format_result Example.forced_acceptance) <= 4 /\
  length (out_sql_history (format_result Example.forced_acceptance))
    <= attempts (format_result Example.forced_acceptance).
Proof.
  exact (attempts_bound_history Example.libs Example.four_failures "q"
           (format_result Example.forced_acceptance)
           ltac:(vm_compute; reflexivity)).
Defined.





(** ** The error of a failed run *)










(** ** Steps, judgments and results *)

(** Case analysis on the innermost scrutinee of a hypothesis. *)
Ltac break_match_in H :=
  repeat match type of H with
         | context [match ?x with _ => _ end] =>
             lazymatch x with
             | context [match _ with _ => _ end] => fail
             | _ => destruct x eqn:?
             end
         end.

(** X7: one step of the graph, from any state and at any node, keeps the
    user's query, never clears the completion latch, and makes at most
    three calls of the client. *)
Theorem step_keeps_query_and_latch libs c nd st n nd' st' n' :
  step libs c nd st n = Ok (nd', st', n') ->
  user_query st' = user_query st /\
  (workflow_complete st = true -> workflow_complete st' = true) /\
  n <= n' /\ n' <= n + 3.
Proof.
  intros HS. destruct nd; cbn [step] in HS.
  - unfold planner_node, determine_order, adequacy_check in HS.
    break_match_in HS; try discriminate;
      repeat match goal with
             | H : (_, _) = (_, _) |- _ => injection H as <- <-
             end;
      injection HS as <- <- <-; state_simpl; repeat split; auto; lia.
  - unfold sql_generation_node in HS.
    break_match_in HS; try discriminate;
      injection HS as <- <- <-; state_simpl; repeat split; auto; lia.
  - unfold evaluation_node, should_regenerate_sql in HS.
    break_match_in HS; try discriminate;
      repeat match goal with
             | H : (_, _) = (_, _) |- _ => injection H as <- <-
             end;
      injection HS as <- <- <-; state_simpl; repeat split; auto; lia.
  - injection HS as <- <- <-. unfold error_node.
    destruct (negb _); [destruct (truthy_opt _)|];
      state_simpl; repeat split; auto; lia.
  - injection HS as <- <- <-. repeat split; auto; lia.
Qed.

Lemma step_keeps_query_and_latch_witness :
  user_query Scenario.after_second_rejection
    = user_query Example.after_first_rejection /\
  (workflow_complete Example.after_first_rejection = true ->
   workflow_complete Scenario.after_second_rejection = true) /\
  3 <= 4 /\ 4 <= 3 + 3.
Proof.
  exact (step_keeps_query_and_latch Example.libs Example.two_rejections
           node_sql_generation Example.after_first_rejection 3
           node_error Scenario.after_second_rejection 4
           ltac:(vm_compute; reflexivity)).
Defined.

(** X8: the category order is decided once.  From any state whose order is
    not empty, a step at any node leaves the order and the recorded tool
    calls as they are, and makes at most one call of the client. *)
Theorem order_is_decided_once libs c nd st n nd' st' n' :
  selected_tool_order st <> [] ->
  step libs c nd st n = Ok (nd', st', n') ->
  selected_tool_order st' = selected_tool_order st /\
  tool_calls_made st' = tool_calls_made st /\
  n' <= n + 1.
Proof.
  intros NE HS. destruct nd; cbn [step] in HS.
  - unfold planner_node, determine_order, adequacy_check in HS.
    destruct (selected_tool_order st) eqn:E; [congruence|].
    break_match_in HS; try discriminate;
      injection HS as <- <- <-; state_simpl; rewrite ?E;
      repeat split; auto; lia.
  - unfold sql_generation_node in HS.
    break_match_in HS; try discriminate;
      injection HS as <- <- <-; state_simpl; repeat split; auto; lia.
  - unfold evaluation_node, should_regenerate_sql in HS.
    break_match_in HS; try discriminate;
      repeat match goal with
             | H : (_, _) = (_, _) |- _ => injection H as <- <-
             end;
      injection HS as <- <- <-; state_simpl; repeat split; auto; lia.
  - injection HS as <- <- <-. unfold error_node.
    destruct (negb _); [destruct (truthy_opt _)|];
      state_simpl; repeat split; auto; lia.
  - injection HS as <- <- <-. repeat split; auto; lia.
Qed.

Lemma order_is_decided_once_witness :
  selected_tool_order Scenario.after_second_rejection
    = selected_tool_order Example.after_first_rejection /\
  tool_calls_made Scenario.after_second_rejection
    = tool_calls_made Example.after_first_rejection /\
  4 <= 3 + 1.
Proof.
  exact (order_is_decided_once Example.libs Example.two_rejections
           node_sql_generation Example.after_first_rejection 3
           node_error Scenario.after_second_rejection 4
           ltac:(vm_compute; discriminate) ltac:(vm_compute; reflexivity)).
Defined.

(** A judgment is used only when it is an object that has the four keys the
    node reads, with scores that can be formatted as numbers. *)
Lemma parse_judgment_well_formed libs r v :
  parse_judgment libs r = inr (Ok v) ->
  exists kv acc opt p fb,
    v = JObj kv /\
    dict_get kv "accuracy_score" = Some acc /\ format_2f_check acc = Ok tt /\
    dict_get kv "optimization_score" = Some opt /\
    format_2f_check opt = Ok tt /\
    dict_get kv "passed" = Some p /\ dict_get kv "feedback" = Some fb.
Proof.
  unfold parse_judgment. destruct r as [[text|]|e]; try discriminate.
  destruct (json_loads libs _) as [ev|]; [|discriminate].
  intros H. injection H as H.
  destruct ev as [| | | | |kv]; try discriminate.
  unfold getitem in H.
  destruct (dict_get kv "accuracy_score") as [acc|] eqn:A; [|discriminate].
  cbn [bind] in H.
  destruct (format_2f_check acc) as [[]|] eqn:FA; [|discriminate].
  cbn [bind] in H.
  destruct (dict_get kv "optimization_score") as [opt|] eqn:O; [|discriminate].
  cbn [bind] in H.
  destruct (format_2f_check opt) as [[]|] eqn:FO; [|discriminate].
  cbn [bind] in H.
  destruct (dict_get kv "passed") as [p|] eqn:P; [|discriminate].
  cbn [bind] in H.
  destruct (dict_get kv "feedback") as [fb|] eqn:F; [|discriminate].
  cbn [bind] in H.
  match type of H with
  | bind ?x _ = _ => destruct x; [|discriminate]
  end.
  injection H as <-. exists kv, acc, opt, p, fb. repeat split; assumption.
Qed.

(** X9: a judgment that parses as JSON but is not an object, or lacks one
    of the keys the node reads, is not a rejection: whatever it says about
    [passed], the candidate is approved, the latch is set and the run
    ends. *)
Theorem malformed_judgment_is_approved libs c st n text v :
  generate c n = Ok (Some text) ->
  json_loads libs (match json_search text with
                   | Some m => m
                   | None => text
                   end) = Some v ->
  (forall kv, v = JObj kv ->
     exists k, In k required_keys /\ dict_get kv k = None) ->
  exists st' e,
    step libs c node_evaluation st n = Ok (END, st', S n) /\
    final_sql st' = generated_sql st /\
    workflow_complete st' = true /\
    error_message st' = error_message st /\
    dict_get (evaluation_result st') "passed" = Some (JBool true) /\
    dict_get (evaluation_result st') "feedback" =
      Some (JStr ("Auto-approved due to error: " ++ exn_str e)%string).
Proof.
  intros G J M. cbn [step]. unfold evaluation_node.
  destruct (parse_judgment libs (generate c n)) as [[]|[v'|e]] eqn:PJ.
  - exfalso. unfold parse_judgment in PJ. rewrite G, J in PJ. discriminate.
  - exfalso.
    destruct (parse_judgment_well_formed _ _ _ PJ)
      as [kv [acc [opt [p [fb [-> [A [_ [O [_ [P F]]]]]]]]]]].
    unfold parse_judgment in PJ. rewrite G, J in PJ.
    injection PJ as PJ.
    assert (E : v = JObj kv).
    { repeat match type of PJ with
             | bind ?x _ = Ok _ =>
                 destruct x eqn:?; cbn [bind] in PJ; [|discriminate]
             end.
      injection PJ as ->. reflexivity. }
    destruct (M kv E) as [k [K N]].
    simpl in K. destruct K as [<-|[<-|[<-|[<-|[]]]]]; congruence.
  - exists (set_workflow_complete true
              (set_final_sql (generated_sql st)
                 (set_evaluation_result
                    (auto_approved ("Auto-approved due to error: " ++ exn_str e))
                    st))), e.
    unfold should_regenerate_sql; state_simpl. repeat split.
Qed.

Lemma malformed_judgment_is_approved_witness :
  exists st' e,
    step Scenario.sparse_libs (Example.primary_only [Example.says "{sparse}"])
      node_evaluation Example.after_candidate 0 = Ok (END, st', 1) /\
    final_sql st' = generated_sql Example.after_candidate /\
    workflow_complete st' = true /\
    error_message st' = error_message Example.after_candidate /\
    dict_get (evaluation_result st') "passed" = Some (JBool true) /\
    dict_get (evaluation_result st') "feedback" =
      Some (JStr ("Auto-approved due to error: " ++ exn_str e)%string).
Proof.
  exact (malformed_judgment_is_approved Scenario.sparse_libs
           (Example.primary_only [Example.says "{sparse}"])
           Example.after_candidate 0 "{sparse}"
           (JObj [("passed", JBool false); ("feedback", JStr "bad")])
           ltac:(vm_compute; reflexivity) ltac:(vm_compute; reflexivity)
           ltac:(intros kv E; injection E as <-; exists "accuracy_score";
                 split; [left; reflexivity | reflexivity])).
Defined.

(** X10: the evaluation node asks for another candidate only when the
    judgment is well formed, its [passed] is falsy, the latch is not set
    and fewer than four attempts were made; the request changes neither
    the candidate, nor the result fields, nor the audit trail. *)
Theorem regeneration_needs_rejection libs c st n st' n' :
  step libs c node_evaluation st n = Ok (node_sql_generation, st', n') ->
  exists kv p,
    parse_judgment libs (generate c n) = inr (Ok (JObj kv)) /\
    dict_get kv "passed" = Some p /\ truthy p = false /\
    workflow_complete st = false /\ sql_generation_attempts st < 4 /\
    n' = S n /\
    needs_regeneration st' = true /\ evaluation_result st' = kv /\
    final_sql st' = final_sql st /\ error_message st' = error_message st /\
    generated_sql st' = generated_sql st /\
    sql_generation_attempts st' = sql_generation_attempts st /\
    sql_history st' = sql_history st.
Proof.
  cbn [step]. unfold evaluation_node.
  destruct (parse_judgment libs (generate c n)) as [[]|[v|e]] eqn:PJ;
    try (unfold should_regenerate_sql; state_simpl; discriminate).
  destruct (parse_judgment_well_formed _ _ _ PJ)
    as [kv [acc [opt [p [fb [-> [A [_ [O [_ [P F]]]]]]]]]]].
  cbn [as_dict]. rewrite P.
  destruct (truthy p) eqn:T;
    [unfold should_regenerate_sql; state_simpl; discriminate|].
  unfold should_regenerate_sql; state_simpl.
  destruct (workflow_complete st); [discriminate|]. cbn [negb].
  destruct (Nat.leb_spec 4 (sql_generation_attempts st)) as [L|L].
  - rewrite F. destruct fb; discriminate.
  - intros HS. injection HS as <- <-. exists kv, p. repeat split; auto.
Qed.

Lemma regeneration_needs_rejection_witness :
  exists kv p,
    parse_judgment Example.libs (generate Example.four_failures 3)
      = inr (Ok (JObj kv)) /\
    dict_get kv "passed" = Some p /\ truthy p = false /\
    workflow_complete Scenario.first_candidate = false /\
    sql_generation_attempts Scenario.first_candidate < 4 /\
    4 = 4 /\
    needs_regeneration Scenario.first_rejected = true /\
    evaluation_result Scenario.first_rejected = kv /\
    final_sql Scenario.first_rejected = final_sql Scenario.first_candidate /\
    error_message Scenario.first_rejected
      = error_message Scenario.first_candidate /\
    generated_sql Scenario.first_rejected
      = generated_sql Scenario.first_candidate /\
    sql_generation_attempts Scenario.first_rejected
      = sql_generation_attempts Scenario.first_candidate /\
    sql_history Scenario.first_rejected = sql_history Scenario.first_candidate.
Proof.
  exact (regeneration_needs_rejection Example.libs Example.four_failures
           Scenario.first_candidate 3 Scenario.first_rejected 4
           ltac:(vm_compute; reflexivity)).
Defined.

(** X11: [error_node] is idempotent; it always leaves a non-empty error
    message and the latch set, keeps a message that is already there, and
    never touches [final_sql]. *)
Theorem error_node_idempotent st :
  error_node (error_node st) = error_node st /\
  truthy_opt (error_message (error_node st)) = true /\
  workflow_complete (error_node st) = true /\
  final_sql (error_node st) = final_sql st /\
  (truthy_opt (error_message st) = true ->
   error_message (error_node st) = error_message st).
Proof.
  unfold error_node.
  destruct (truthy_opt (error_message st)) eqn:T; cbn [negb].
  - state_simpl. rewrite T. cbn [negb]. repeat split; auto.
  - destruct (sql_generation_error st) as [g|] eqn:G; cbn [truthy_opt].
    + destruct (truthy_str g); state_simpl;
        cbn [truthy_opt truthy_str append negb];
        repeat split; discriminate.
    + state_simpl; cbn [truthy_opt truthy_str negb].
      repeat split; discriminate.
Qed.

Lemma error_node_idempotent_witness :
  error_node (error_node (out_of_scope (initial_state "q")))
    = error_node (out_of_scope (initial_state "q")) /\
  truthy_opt (error_message (error_node (out_of_scope (initial_state "q"))))
    = true /\
  workflow_complete (error_node (out_of_scope (initial_state "q"))) = true /\
  final_sql (error_node (out_of_scope (initial_state "q")))
    = final_sql (out_of_scope (initial_state "q")) /\
  error_message (error_node (out_of_scope (initial_state "q")))
    = error_message (out_of_scope (initial_state "q")).
Proof.
  destruct (error_node_idempotent (out_of_scope (initial_state "q")))
    as [I [T [W [F K]]]].
  split; [exact I|]. split; [exact T|]. split; [exact W|].
  split; [exact F|]. apply K. reflexivity.
Defined.

(** X12: the dict returned by [run_nlp_to_sql] has exactly one of the keys
    [sql] and [error], and [success] tells which: with [success] the SQL is
    the non-empty [final_sql] of the state, without it the error is a
    non-empty text.  This holds for every final state, also for one that
    carries both [final_sql] and [error_message]. *)
Theorem result_has_sql_xor_error st :
  xorb (is_set (sql (format_result st))) (is_set (error (format_result st)))
    = true /\
  success (format_result st) = is_set (sql (format_result st)) /\
  (success (format_result st) = true ->
   sql (format_result st) = final_sql st /\
   truthy_opt (final_sql st) = true) /\
  (success (format_result st) = false ->
   truthy_opt (error (format_result st)) = true).
Proof.
  unfold format_result.
  destruct (truthy_opt (final_sql st)) eqn:T; cbn [sql error success].
  - rewrite (truthy_is_set _ T). repeat split; auto; discriminate.
  - repeat split; auto; try discriminate. intros _.
    destruct (error_message st) as [m|]; cbn [truthy_opt]; [|reflexivity].
    destruct (truthy_str m) eqn:M; [exact M | reflexivity].
Qed.

Lemma result_has_sql_xor_error_witness :
  sql (format_result Example.forced_acceptance)
    = final_sql Example.forced_acceptance /\
  truthy_opt (final_sql Example.forced_acceptance) = true.
Proof.
  exact (proj1 (proj2 (proj2
           (result_has_sql_xor_error Example.forced_acceptance)))
           ltac:(vm_compute; reflexivity)).
Defined.

(** ** Where a run raises, the endpoint, and outages *)

Lemma run_to_first_Raise libs c q k e :
  run_to libs c q k = Raise e ->
  exists k' nd st n,
    run_to libs c q k' = Ok (nd, st, n) /\ step libs c nd st n = Raise e.
Proof.
  induction k as [|k IH]; intros R; [discriminate|].
  cbn [run_to] in R.
  destruct (run_to libs c q k) as [[[nd st] n]|e0] eqn:R0.
  - exists k, nd, st, n. split; [exact R0 | exact R].
  - apply IH. exact R.
Qed.

Lemma planner_raises libs c st n e :
  step libs c node_planner st n = Raise e -> exists k, e = KeyError k.
Proof.
  cbn [step]. unfold planner_node, determine_order, adequacy_check.
  intros HS. break_match_in HS; try discriminate;
    repeat match goal with
           | H : (_, _) = (_, _) |- _ => injection H as <- <-
           end;
    try discriminate; injection HS as <-; eauto.
Qed.

Lemma generation_raises libs c st n e :
  step libs c node_sql_generation st n = Raise e ->
  e = TypeError "'NoneType' object is not iterable".
Proof.
  cbn [step]. unfold sql_generation_node.
  intros HS. break_match_in HS; try discriminate;
    repeat match goal with
           | H : (_, _) = (_, _) |- _ => injection H as <- <-
           end;
    try discriminate; injection HS as <-; reflexivity.
Qed.

Lemma evaluation_raises libs c st n e :
  workflow_complete st = false -> sql_generation_attempts st <= 4 ->
  step libs c node_evaluation st n = Raise e ->
  sql_generation_attempts st = 4 /\
  exists kv p fb,
    parse_judgment libs (generate c n) = inr (Ok (JObj kv)) /\
    dict_get kv "passed" = Some p /\ truthy p = false /\
    dict_get kv "feedback" = Some fb /\ (forall s, fb <> JStr s).
Proof.
  intros W A. cbn [step]. unfold evaluation_node.
  destruct (parse_judgment libs (generate c n)) as [[]|[v|e0]] eqn:PJ;
    try (unfold should_regenerate_sql; state_simpl; discriminate).
  destruct (parse_judgment_well_formed _ _ _ PJ)
    as [kv [acc [opt [p [fb [-> [_ [_ [_ [_ [P F]]]]]]]]]]].
  cbn [as_dict]. rewrite P.
  destruct (truthy p) eqn:T;
    [unfold should_regenerate_sql; state_simpl; discriminate|].
  unfold should_regenerate_sql; state_simpl. rewrite W. cbn [negb].
  destruct (Nat.leb_spec 4 (sql_generation_attempts st)) as [L|L];
    [|discriminate].
  rewrite F. intros HS. split; [lia|].
  exists kv, p, fb. repeat split; auto.
  intros s ->. discriminate.
Qed.

Lemma invoke_raise_site libs c q e :
  invoke libs c q = Raise e -> e = crash /\ raise_site libs c q.
Proof.
  intros I.
  pose proof (invoke_total libs c q) as T. rewrite I in T. subst e.
  split; [reflexivity|].
  destruct (run_reaches_END libs c q 13 0 node_planner (initial_state q) 0
              eq_refl) as [j [_ H]].
  { unfold measure; state_simpl. lia. }
  cbn [Nat.add] in H.
  destruct (run_to libs c q j) as [[[nd st] n]|e] eqn:R.
  - subst nd. rewrite (run_to_END _ _ _ _ _ _ R) in I. discriminate.
  - destruct (run_to_first_Raise _ _ _ _ _ R) as [k [nd [st [n [R0 HS]]]]].
    subst e.
    destruct (run_to_sound _ _ _ _ _ _ _ R0) as [[_ V] _].
    destruct nd.
    + destruct (planner_raises _ _ _ _ _ HS) as [key K]. discriminate.
    + pose proof (generation_raises _ _ _ _ _ HS) as K. discriminate.
    + destruct V as [[W _] [_ [A _]]].
      destruct (evaluation_raises _ _ _ _ _ W A HS)
        as [A4 [kv [p [fb [PJ [P [T [F NS]]]]]]]].
      exists k, st, n, kv, p, fb. repeat split; auto.
    + discriminate.
    + discriminate.
Qed.

(** X13: a run raises in one situation only: the fourth candidate is
    rejected by a well-formed judgment whose feedback is not a string, and
    the edge function of the evaluation node fails to build the warning.
    Failures of the providers, unparsable replies and malformed judgments
    never make a run raise. *)
Theorem run_raises_only_at_the_cap libs c q e :
  run_nlp_to_sql libs c q = Raise e ->
  e = crash /\ raise_site libs c q.
Proof.
  unfold run_nlp_to_sql.
  destruct (invoke libs c q) as [st|e0] eqn:I; [discriminate|].
  intros H. injection H as <-. exact (invoke_raise_site _ _ _ _ I).
Qed.

Lemma run_raises_only_at_the_cap_witness :
  crash = crash /\ raise_site Example.libs Example.four_failures_null "q".
Proof.
  exact (run_raises_only_at_the_cap Example.libs Example.four_failures_null
           "q" crash ltac:(vm_compute; reflexivity)).
Defined.


Lemma outage_adequacy c st n x cat :
  (exists e, generate c n = Raise e) ->
  nth_error (selected_tool_order st) (current_tool_index st) = Some x ->
  CATEGORY_MAP x = Some cat ->
  exists st1,
    adequacy_check c st n = (Ok st1, S n) /\
    tables_satisfactory st1 = false /\
    current_tool_index st1 = current_tool_index st + 1 /\
    selected_tool_order st1 = selected_tool_order st /\
    workflow_complete st1 = workflow_complete st /\
    final_sql st1 = final_sql st /\
    error_message st1 = error_message st /\
    sql_generation_error st1 = sql_generation_error st /\
    sql_generation_attempts st1 = sql_generation_attempts st /\
    sql_history st1 = sql_history st.
Proof.
  intros [e G] Hx Hc. unfold adequacy_check. rewrite Hx, Hc, G.
  cbn [relevance_score_of]. rewrite default_score_inadequate.
  eexists. split; [reflexivity|]. repeat split.
Qed.

Lemma outage_planner_step libs c st n x cat :
  (exists e, generate c n = Raise e) ->
  selected_tool_order st <> [] ->
  workflow_complete st = false ->
  nth_error (selected_tool_order st) (current_tool_index st) = Some x ->
  CATEGORY_MAP x = Some cat ->
  exists st1,
    step libs c node_planner st n =
      Ok ((if current_tool_index st + 1 <? length (selected_tool_order st)
           then node_planner else node_error), st1, S n) /\
    current_tool_index st1 = current_tool_index st + 1 /\
    selected_tool_order st1 = selected_tool_order st /\
    workflow_complete st1 = false /\
    final_sql st1 = final_sql st /\
    error_message st1 = error_message st /\
    sql_generation_error st1 = sql_generation_error st /\
    sql_generation_attempts st1 = sql_generation_attempts st /\
    sql_history st1 = sql_history st.
Proof.
  intros G NE W Hx Hc.
  destruct (outage_adequacy c st n x cat G Hx Hc)
    as [st1 [A [TS [CI [TO [WC [FS [EM [SE [AT SH]]]]]]]]]].
  exists st1. split; [|repeat split; congruence].
  cbn [step]. unfold planner_node, determine_order.
  destruct (selected_tool_order st) eqn:E; [congruence|].
  rewrite A. unfold should_continue_planner.
  rewrite WC, W, TS, CI, TO. reflexivity.
Qed.

Lemma outage_run libs c q :
  (exists e, generate_with_tools c 0 = Raise e) ->
  (forall n, exists e, generate c n = Raise e) ->
  (exists st, run_to libs c q 3 = Ok (node_error, st, 4)) /\
  exists out,
    run_nlp_to_sql libs c q = Ok out /\
    success out = false /\
    error out = Some generic_error_message /\
    tool_order out =
      ["Customer & Sales"; "Inventory & Products"; "Operations & Analytics"] /\
    attempts out = 0 /\ out_sql_history out = [].
Proof.
  intros [e0 G0] G.
  destruct (outage_adequacy c (fallback_order (initial_state q)) 1 0
              {| name := "Customer & Sales"; tables := CATEGORY_1_TABLES |}
              (G 1) eq_refl eq_refl)
    as [st1 [A1 [TS1 [CI1 [TO1 [WC1 [FS1 [EM1 [SE1 [AT1 SH1]]]]]]]]]].
  state_simpl_in CI1. state_simpl_in TO1. state_simpl_in WC1.
  state_simpl_in FS1. state_simpl_in EM1. state_simpl_in SE1.
  state_simpl_in AT1. state_simpl_in SH1.
  assert (R1 : run_to libs c q 1 = Ok (node_planner, st1, 2)).
  { cbn [run_to step]. unfold planner_node, determine_order. state_simpl.
    rewrite G0, A1. unfold should_continue_planner.
    rewrite WC1, TS1, CI1, TO1. reflexivity. }
  destruct (outage_planner_step libs c st1 2 1
              {| name := "Inventory & Products"; tables := CATEGORY_2_TABLES |}
              (G 2))
    as [st2 [S2 [CI2 [TO2 [WC2 [FS2 [EM2 [SE2 [AT2 SH2]]]]]]]]];
    try (rewrite TO1; discriminate); try exact WC1;
    try (rewrite TO1, CI1; reflexivity); try reflexivity.
  rewrite TO1, CI1 in S2. cbn [Nat.add length Nat.ltb Nat.leb] in S2.
  assert (R2 : run_to libs c q 2 = Ok (node_planner, st2, 3)).
  { rewrite (run_to_step _ _ _ _ _ _ _ R1). exact S2. }
  destruct (outage_planner_step libs c st2 3 2
              {| name := "Operations & Analytics"; tables := CATEGORY_3_TABLES |}
              (G 3))
    as [st3 [S3 [CI3 [TO3 [WC3 [FS3 [EM3 [SE3 [AT3 SH3]]]]]]]]];
    try (rewrite TO2, TO1; discriminate); try exact WC2;
    try (rewrite TO2, TO1, CI2, CI1; reflexivity); try reflexivity.
  rewrite TO2, TO1, CI2, CI1 in S3. cbn [Nat.add length Nat.ltb Nat.leb] in S3.
  assert (R3 : run_to libs c q 3 = Ok (node_error, st3, 4)).
  { rewrite (run_to_step _ _ _ _ _ _ _ R2). exact S3. }
  split; [exists st3; exact R3|].
  pose proof (run_through_error _ _ _ _ _ _ R3) as I.
  rewrite (run_result _ _ _ _ I). eexists. split; [reflexivity|].
  unfold format_result, error_node.
  rewrite EM3, EM2, EM1, SE3, SE2, SE1. cbn [truthy_opt negb]. state_simpl.
  rewrite FS3, FS2, FS1. cbn [truthy_opt success error tool_order attempts
    out_sql_history truthy_str generic_error_message]. state_simpl.
  rewrite TO3, TO2, TO1, AT3, AT2, AT1, SH3, SH2, SH1. repeat split.
Qed.



(** X22: a client initialised without a usable key (each key unset or
    empty) attempts no backend: every call raises the fixed ValueError, and
    a run on it returns the failure of a total outage. *)
Theorem unusable_keys_attempt_no_backend libs k1 k2 groq mistral q :
  truthy_opt k1 = false -> truthy_opt k2 = false ->
  (forall n,
     generate_log (initialize k1 k2 groq mistral) n
       = ([], Raise (ValueError both_failed_msg)) /\
     generate_with_tools_log (initialize k1 k2 groq mistral) n
       = ([], Raise (ValueError both_failed_msg))) /\
  exists out,
    run_nlp_to_sql libs (initialize k1 k2 groq mistral) q = Ok out /\
    success out = false /\
    error out = Some generic_error_message.
Proof.
  intros K1 K2.
  assert (G : forall n,
    generate_log (initialize k1 k2 groq mistral) n
      = ([], Raise (ValueError both_failed_msg)) /\
    generate_with_tools_log (initialize k1 k2 groq mistral) n
      = ([], Raise (ValueError both_failed_msg))).
  { intros n. unfold generate_log, generate_with_tools_log, initialize.
    cbn [primary_client mistral_api_key]. rewrite K1, K2. split; reflexivity. }
  split; [exact G|].
  destruct (outage_run libs (initialize k1 k2 groq mistral) q)
    as [_ [out [R [HS [E _]]]]].
  - eexists. unfold generate_with_tools. rewrite (proj2 (G 0)). reflexivity.
  - intros n. eexists. unfold generate. rewrite (proj1 (G n)). reflexivity.
  - exists out. repeat split; assumption.
Qed.

Lemma unusable_keys_attempt_no_backend_witness :
  (forall n,
     generate_log (initialize (Some "") None (Example.scripted Example.routed)
                     (Example.scripted Example.routed)) n
       = ([], Raise (ValueError both_failed_msg)) /\
     generate_with_tools_log
       (initialize (Some "") None (Example.scripted Example.routed)
          (Example.scripted Example.routed)) n
       = ([], Raise (ValueError both_failed_msg))) /\
  exists out,
    run_nlp_to_sql Example.libs
      (initialize (Some "") None (Example.scripted Example.routed)
         (Example.scripted Example.routed)) "q" = Ok out /\
    success out = false /\
    error out = Some generic_error_message.
Proof.
  exact (unusable_keys_attempt_no_backend Example.libs (Some "") None
           (Example.scripted Example.routed) (Example.scripted Example.routed)
           "q" eq_refl eq_refl).
Defined.

(** ** Failover of the client *)

(** X16: failover of [generate] and [generate_with_tools].  An answer of
    the primary is returned and the fallback is not attempted; a failure
    of the primary is masked by an answer of the fallback; with no
    fallback configured, a failure of the primary is replaced by the fixed
    ValueError; each backend is attempted at most once, the primary first;
    and an error that reaches the caller is the fallback's own or the
    fixed ValueError, never the primary's. *)
Theorem failover_returns_first_answer (c : client) (n : nat) :
  (forall p m, primary_client c = Some p -> p n = Ok m ->
     generate_log c n = ([Primary], Ok (content m)) /\
     generate_with_tools_log c n = ([Primary], Ok (to_response m))) /\
  (forall p e f m,
     primary_client c = Some p -> p n = Raise e ->
     mistral_api_key c = Some f -> f n = Ok m ->
     generate_log c n = ([Primary; Mistral], Ok (content m)) /\
     generate_with_tools_log c n = ([Primary; Mistral], Ok (to_response m))) /\
  (forall p e,
     primary_client c = Some p -> p n = Raise e -> mistral_api_key c = None ->
     generate_log c n = ([Primary], Raise (ValueError both_failed_msg)) /\
     generate_with_tools_log c n =
       ([Primary], Raise (ValueError both_failed_msg))) /\
  (exists l, fst (generate_log c n) = l /\
             fst (generate_with_tools_log c n) = l /\
             (l = [] \/ l = [Primary] \/ l = [Mistral] \/
              l = [Primary; Mistral])) /\
  (forall e, generate c n = Raise e \/ generate_with_tools c n = Raise e ->
     (mistral_api_key c = None /\ e = ValueError both_failed_msg) \/
     (exists f, mistral_api_key c = Some f /\ f n = Raise e)).
Proof.
  unfold generate, generate_with_tools, generate_log, generate_with_tools_log.
  repeat apply conj.
  - intros p m -> ->. split; reflexivity.
  - intros p e f m -> -> -> ->. split; reflexivity.
  - intros p e -> -> ->. split; reflexivity.
  - destruct (primary_client c) as [p|]; [destruct (p n)|];
      (destruct (mistral_api_key c) as [f|]; [destruct (f n)|]);
      eexists; cbn [fst app]; repeat split; auto.
  - intros e.
    destruct (primary_client c) as [p|]; [destruct (p n)|];
      (destruct (mistral_api_key c) as [f|] eqn:F; [destruct (f n) eqn:K|]);
      cbn [snd]; intros [H|H]; try discriminate; injection H as <-;
      eauto.
Qed.

Lemma failover_returns_first_answer_witness :
  (generate_log Scenario.primary_up 0 = ([Primary], Ok (Some "SELECT 1"))) /\
  (generate_log Scenario.primary_down 0 = ([Primary; Mistral], Ok (Some "SELECT 1"))) /\
  (generate_log (Example.primary_only []) 0
     = ([Primary], Raise (ValueError both_failed_msg))).
Proof.
  split; [|split].
  - exact (proj1 (proj1 (failover_returns_first_answer Scenario.primary_up 0)
                    (Example.scripted [Example.says "SELECT 1"])
                    {| content := Some "SELECT 1"; tool_calls := [] |}
                    eq_refl eq_refl)).
  - exact (proj1 (proj1 (proj2 (failover_returns_first_answer Scenario.primary_down 0))
                    (fun _ => Raise (APIError "primary timeout"))
                    (APIError "primary timeout")
                    (Example.scripted [Example.says "SELECT 1"])
                    {| content := Some "SELECT 1"; tool_calls := [] |}
                    eq_refl eq_refl eq_refl eq_refl)).
  - exact (proj1 (proj1 (proj2 (proj2
             (failover_returns_first_answer (Example.primary_only []) 0)))
                    (Example.scripted [])
                    (APIError "connection refused")
                    eq_refl eq_refl eq_refl)).
Defined.

(** X17: [chat] follows the same failover: the answer of the primary with
    its role, else the answer of the fallback with its role; the fallback
    is attempted only when the primary is missing or has failed; an error
    of the fallback is raised as it is, and with no backend left the fixed
    ValueError is raised. *)
Theorem chat_failover (c : Chat.chat_client) (n : nat) :
  (forall p m, Chat.chat_primary_client c = Some p -> p n = Ok m ->
     Chat.chat_log c n = ([Primary], Ok (Chat.to_chat_response m))) /\
  (forall f, Chat.chat_primary_client c = None ->
     Chat.chat_mistral_api_key c = Some f ->
     Chat.chat_log c n =
       ([Mistral], match f n with
                   | Ok m => Ok (Chat.to_chat_response m)
                   | Raise e => Raise e
                   end)) /\
  (forall p e f,
     Chat.chat_primary_client c = Some p -> p n = Raise e ->
     Chat.chat_mistral_api_key c = Some f ->
     Chat.chat_log c n =
       ([Primary; Mistral], match f n with
                            | Ok m => Ok (Chat.to_chat_response m)
                            | Raise e2 => Raise e2
                            end)) /\
  (Chat.chat_mistral_api_key c = None ->
   (forall p m, Chat.chat_primary_client c = Some p -> p n <> Ok m) ->
   Chat.chat c n = Raise (ValueError both_failed_msg)) /\
  (forall r, Chat.chat c n = Ok r ->
     exists m,
       r = Chat.to_chat_response m /\
       ((exists p, Chat.chat_primary_client c = Some p /\ p n = Ok m) \/
        (exists f, Chat.chat_mistral_api_key c = Some f /\ f n = Ok m))).
Proof.
  unfold Chat.chat, Chat.chat_log. repeat apply conj.
  - intros p m -> ->. reflexivity.
  - intros f -> ->. destruct (f n); reflexivity.
  - intros p e f -> -> ->. destruct (f n); reflexivity.
  - intros -> H.
    destruct (Chat.chat_primary_client c) as [p|]; [|reflexivity].
    destruct (p n) as [m|e] eqn:K; [|reflexivity].
    exfalso. exact (H p m eq_refl K).
  - intros r.
    destruct (Chat.chat_primary_client c) as [p|]; [destruct (p n) eqn:K|];
      (destruct (Chat.chat_mistral_api_key c) as [f|];
       [destruct (f n) eqn:K2|]);
      cbn [snd]; intros H; try discriminate; injection H as <-; eauto 7.
Qed.

Lemma chat_failover_witness :
  Chat.chat_log Scenario.chat_primary_down 0 =
    ([Primary; Mistral],
     Ok {| Chat.chat_content := Some "hello"; Chat.chat_tool_calls := [];
           Chat.chat_role := "assistant" |}).
Proof.
  exact (proj1 (proj2 (proj2 (chat_failover Scenario.chat_primary_down 0)))
           (fun _ => Raise (APIError "primary timeout"))
           (APIError "primary timeout")
           (fun _ => Ok {| Chat.cm_message := {| content := Some "hello";
                                                 tool_calls := [] |};
                           Chat.cm_role := "assistant" |})
           eq_refl eq_refl eq_refl).
Defined.

(** ** Validation and the removal of fences *)

Lemma rstrip_idempotent s : rstrip (rstrip s) = rstrip s.
Proof.
  induction s as [|c s IH]; [reflexivity|].
  cbn [rstrip]. destruct (rstrip s) as [|d r] eqn:R.
  - destruct (isspace c) eqn:C; [reflexivity|].
    cbn [rstrip]. rewrite C. reflexivity.
  - cbn [rstrip]. cbn [rstrip] in IH. rewrite IH. reflexivity.
Qed.

Lemma lstrip_unpadded s : unpadded_left (lstrip s).
Proof.
  induction s as [|c s IH]; [exact I|].
  cbn [lstrip]. destruct (isspace c) eqn:C; [exact IH | exact C].
Qed.

Lemma unpadded_lstrip t : unpadded_left t -> lstrip t = t.
Proof.
  destruct t as [|c t]; [reflexivity|]. cbn [unpadded_left lstrip].
  intros ->. reflexivity.
Qed.

Lemma rstrip_unpadded t : unpadded_left t -> unpadded_left (rstrip t).
Proof.
  destruct t as [|c t]; [intros _; exact I|]. cbn [unpadded_left rstrip].
  intros C. destruct (rstrip t); [rewrite C|]; exact C.
Qed.

Lemma strip_idempotent s : strip (strip s) = strip s.
Proof.
  unfold strip.
  rewrite (unpadded_lstrip (rstrip (lstrip s)))
    by (apply rstrip_unpadded, lstrip_unpadded).
  apply rstrip_idempotent.
Qed.

Lemma lstrip_spaces s :
  (forall ch, In ch (list_ascii_of_string s) -> isspace ch = true) ->
  lstrip s = EmptyString.
Proof.
  induction s as [|c s IH]; intros H; [reflexivity|].
  cbn [lstrip]. rewrite (H c) by (left; reflexivity).
  apply IH. intros ch K. apply H. right. exact K.
Qed.

(** X18: validation does not depend on white space around the candidate,
    and a candidate made of white space only is rejected, with and without
    sqlparse. *)
Theorem validation_ignores_padding libs s :
  validate_sql_syntax libs (strip s) = validate_sql_syntax libs s /\
  ((forall ch, In ch (list_ascii_of_string s) -> isspace ch = true) ->
   validate_sql_syntax libs s = false).
Proof.
  split.
  - unfold validate_sql_syntax. rewrite strip_idempotent.
    destruct (truthy_str (strip s)) eqn:T.
    + assert (TS : truthy_str s = true) by (destruct s; [discriminate | reflexivity]).
      rewrite TS. reflexivity.
    + rewrite !orb_true_r. reflexivity.
  - intros H. unfold validate_sql_syntax, strip.
    rewrite (lstrip_spaces s H). cbn [rstrip truthy_str negb].
    rewrite orb_true_r. reflexivity.
Qed.

Lemma validation_ignores_padding_witness :
  validate_sql_syntax Example.libs "   " = false.
Proof.
  apply (proj2 (validation_ignores_padding Example.libs "   ")).
  intros ch H. simpl in H.
  destruct H as [<-|[<-|[<-|[]]]]; reflexivity.
Defined.

Lemma after_first_fence pre r :
  (forall ch, In ch (list_ascii_of_string pre) -> ch <> "`"%char) ->
  after_first fence (pre ++ fence ++ r)%string = Some r.
Proof.
  induction pre as [|c pre IH]; intros H.
  - destruct r; reflexivity.
  - cbn [append after_first]. unfold fence at 1. cbn [String.prefix].
    destruct (ascii_dec "`" c) as [E|_].
    + exfalso. apply (H c); [left; reflexivity | symmetry; exact E].
    + apply IH. intros ch K. apply H. right. exact K.
Qed.

Lemma contains_fence_app pre r :
  contains fence (pre ++ fence ++ r)%string = true.
Proof.
  induction pre as [|c pre IH].
  - destruct r; reflexivity.
  - cbn [append contains]. rewrite IH. apply orb_true_r.
Qed.

Lemma rstrip_nil_lstrip b t :
  rstrip b = EmptyString -> lstrip (b ++ t)%string = lstrip t.
Proof.
  induction b as [|c b IH]; [reflexivity|].
  cbn [rstrip append lstrip].
  destruct (rstrip b); [|discriminate].
  destruct (isspace c); [|discriminate].
  intros _. apply IH. reflexivity.
Qed.

Lemma append_empty b : (b ++ EmptyString)%string = b.
Proof.
  induction b as [|c b IH]; [reflexivity|]. cbn [append]. rewrite IH.
  reflexivity.
Qed.

Lemma rstrip_nil_strip b : rstrip b = EmptyString -> strip b = EmptyString.
Proof.
  intros H. unfold strip.
  pose proof (rstrip_nil_lstrip b EmptyString H) as K.
  rewrite append_empty in K. rewrite K. reflexivity.
Qed.

Lemma rstrip_cons c b :
  rstrip (String c b) <> EmptyString ->
  rstrip (String c b) = String c (rstrip b).
Proof.
  cbn [rstrip]. destruct (rstrip b); [|reflexivity].
  destruct (isspace c); intros H; [destruct (H eq_refl) | reflexivity].
Qed.

Lemma rstrip_some_lstrip b t :
  rstrip b <> EmptyString ->
  lstrip (b ++ t)%string = (lstrip b ++ t)%string /\ lstrip b <> EmptyString.
Proof.
  induction b as [|c b IH]; [intros H; destruct (H eq_refl)|].
  intros H. cbn [append lstrip].
  destruct (isspace c) eqn:C.
  - apply IH. intros E. apply H. cbn [rstrip]. rewrite E, C. reflexivity.
  - split; [reflexivity | discriminate].
Qed.

Lemma contains_prefix sub s :
  contains sub s = false -> String.prefix sub s = false.
Proof.
  destruct s; cbn [contains]; intros H; apply orb_false_elim in H; apply H.
Qed.

Lemma contains_lstrip sub b :
  contains sub b = false -> contains sub (lstrip b) = false.
Proof.
  induction b as [|c b IH]; [auto|].
  intros H. cbn [lstrip]. destruct (isspace c); [|exact H].
  apply IH. cbn [contains] in H. apply orb_false_elim in H. apply H.
Qed.

(** A fence does not begin in a text and end after a newline that
    follows it. *)
Lemma prefix_fence_newline u r :
  u <> EmptyString -> String.prefix fence u = false ->
  String.prefix fence (u ++ String newline r)%string = false.
Proof.
  intros NE H. unfold fence in *.
  destruct u as [|a [|b [|d u]]]; [congruence| | |];
    cbn [append String.prefix] in *;
    repeat match goal with
           | |- context [ascii_dec ?x ?y] => destruct (ascii_dec x y)
           | H : context [ascii_dec ?x ?y] |- _ => destruct (ascii_dec x y)
           end; subst; try reflexivity; try discriminate.
  destruct u; discriminate.
Qed.

Lemma lazy_group_closing b post :
  contains fence b = false ->
  lazy_group (b ++ String newline (fence ++ post))%string = Some (rstrip b).
Proof.
  induction b as [|c b IH]; intros H.
  - destruct post; reflexivity.
  - pose proof H as H'. cbn [contains] in H'.
    apply orb_false_elim in H'. destruct H' as [_ Hb].
    destruct (rstrip (String c b)) as [|d r] eqn:R.
    + change ((String c b ++ String newline (fence ++ post))%string)
        with (String c (b ++ String newline (fence ++ post))%string).
      cbn [lazy_group].
      change (String c (b ++ String newline (fence ++ post))%string)
        with ((String c b ++ String newline (fence ++ post))%string).
      rewrite (rstrip_nil_lstrip _ _ R).
      destruct post; reflexivity.
    + assert (NE : rstrip (String c b) <> EmptyString) by (rewrite R; discriminate).
      destruct (rstrip_some_lstrip (String c b)
                  (String newline (fence ++ post)) NE) as [L LN].
      change ((String c b ++ String newline (fence ++ post))%string)
        with (String c (b ++ String newline (fence ++ post))%string) in *.
      cbn [lazy_group]. rewrite L.
      rewrite (prefix_fence_newline _ _ LN
                 (contains_prefix _ _ (contains_lstrip _ _ H))).
      rewrite (IH Hb). cbn [option_map]. rewrite <- R.
      rewrite (rstrip_cons _ _ NE). reflexivity.
Qed.

(** X19: [clean_sql] unwraps a fenced reply.  When the reply has a fence
    tagged sql around a body that contains no fence, then whatever text
    without backquote precedes the fence and whatever text follows it, the
    candidate is the body without the white space around it. *)
Theorem clean_sql_unwraps_fence pre body post :
  (forall ch, In ch (list_ascii_of_string pre) -> ch <> "`"%char) ->
  contains fence body = false ->
  clean_sql (fenced pre body post) = strip body.
Proof.
  intros P B. unfold clean_sql, fenced.
  rewrite contains_fence_app. unfold fence_search.
  rewrite (after_first_fence pre _ P).
  change (String.prefix "sql"
            ("sql" ++ String newline (body ++ String newline (fence ++ post))))
    with true.
  cbv iota.
  change (drop 3 ("sql" ++ String newline (body ++ String newline (fence ++ post))))
    with (String newline (body ++ String newline (fence ++ post)))%string.
  change (lstrip (String newline (body ++ String newline (fence ++ post))%string))
    with (lstrip (body ++ String newline (fence ++ post))%string).
  destruct (rstrip body) as [|d r] eqn:R.
  - rewrite (rstrip_nil_lstrip _ _ R).
    replace (lazy_group (lstrip (String newline (fence ++ post))))
      with (Some EmptyString) by (destruct post; reflexivity).
    rewrite (rstrip_nil_strip _ R). reflexivity.
  - assert (NE : rstrip body <> EmptyString) by (rewrite R; discriminate).
    destruct (rstrip_some_lstrip body (String newline (fence ++ post)) NE)
      as [L _].
    rewrite L, (lazy_group_closing _ _ (contains_lstrip _ _ B)).
    apply strip_idempotent.
Qed.

Lemma clean_sql_unwraps_fence_witness :
  clean_sql (fenced "Here is the query: " "  SELECT 1;  " " Hope it helps.")
    = strip "  SELECT 1;  ".
Proof.
  apply clean_sql_unwraps_fence.
  - intros ch H. simpl in H.
    repeat (destruct H as [<-|H]; [discriminate|]). destruct H.
  - reflexivity.
Defined.

(** ** Scores and the scope check *)

Lemma score_match_here_none c s :
  c <> "0"%char -> c <> "1"%char ->
  (c = "."%char -> digits s = EmptyString) ->
  score_match_here (String c s) = None.
Proof.
  intros H0 H1 Hd.
  destruct c as [[] [] [] [] [] [] [] []]; try reflexivity;
    try (exfalso; apply H0; reflexivity);
    try (exfalso; apply H1; reflexivity).
  cbn [score_match_here]. rewrite (Hd eq_refl). reflexivity.
Qed.

Lemma score_search_none s :
  (forall ch, In ch (list_ascii_of_string s) ->
     ch <> "0"%char /\ ch <> "1"%char) ->
  (forall a b, s = (a ++ String "." b)%string -> digits b = EmptyString) ->
  score_search s = None.
Proof.
  induction s as [|c s IH]; intros H D; [reflexivity|].
  cbn [score_search].
  rewrite score_match_here_none.
  - apply IH.
    + intros ch K. apply H. right. exact K.
    + intros a b E. apply (D (String c a) b). rewrite E. reflexivity.
  - apply (H c). left. reflexivity.
  - apply (H c). left. reflexivity.
  - intros ->. apply (D EmptyString s). reflexivity.
Qed.

Lemma score_match_here_one b :
  score_match_here (String "1" b) = Some "1" \/
  score_match_here (String "1" b) = Some "1.0".
Proof.
  destruct b as [|c1 b1]; [left; reflexivity|].
  destruct c1 as [[] [] [] [] [] [] [] []]; try (left; reflexivity).
  destruct b1 as [|c2 b2]; [left; reflexivity|].
  destruct c2 as [[] [] [] [] [] [] [] []];
    try (left; reflexivity); right; reflexivity.
Qed.

Lemma score_search_one a b :
  (forall ch, In ch (list_ascii_of_string a) ->
     ch <> "0"%char /\ ch <> "1"%char /\ ch <> "."%char) ->
  score_search (a ++ String "1" b) = Some "1" \/
  score_search (a ++ String "1" b) = Some "1.0".
Proof.
  induction a as [|c a IH]; intros H.
  - cbn [append score_search].
    destruct (score_match_here_one b) as [-> | ->]; auto.
  - cbn [append score_search].
    destruct (H c (or_introl eq_refl)) as [H0 [H1 Hd]].
    rewrite score_match_here_none by (auto; congruence).
    apply IH. intros ch K. apply H. right. exact K.
Qed.

(** X20: how a reply to the adequacy question is scored.  A reply with no
    character 0 or 1 and no dot followed by a digit has no literal, gets
    the default 0.5 and is inadequate.  A reply whose first character among
    0, 1 and the dot is a 1 scores 1.0 and is adequate, whatever follows
    the 1. *)
Theorem score_of_reply :
  (forall s,
     (forall ch, In ch (list_ascii_of_string s) ->
        ch <> "0"%char /\ ch <> "1"%char) ->
     (forall a b, s = (a ++ String "." b)%string -> digits b = EmptyString) ->
     score_search s = None /\
     relevance_score_of (Ok (Some s)) = (1 # 2)%Q /\
     ge_0_8 (relevance_score_of (Ok (Some s))) = false) /\
  (forall a b,
     (forall ch, In ch (list_ascii_of_string a) ->
        ch <> "0"%char /\ ch <> "1"%char /\ ch <> "."%char) ->
     (relevance_score_of (Ok (Some (a ++ String "1" b)%string)) == 1)%Q /\
     ge_0_8 (relevance_score_of (Ok (Some (a ++ String "1" b)%string))) = true).
Proof.
  split.
  - intros s H D. pose proof (score_search_none s H D) as N.
    split; [exact N|]. cbn [relevance_score_of]. rewrite N.
    split; [reflexivity | exact default_score_inadequate].
  - intros a b H. cbn [relevance_score_of].
    destruct (score_search_one a b H) as [-> | ->];
      split; vm_compute; reflexivity.
Qed.

Lemma score_of_reply_witness :
  (score_search "85%" = None /\
   relevance_score_of (Ok (Some "85%")) = (1 # 2)%Q /\
   ge_0_8 (relevance_score_of (Ok (Some "85%"))) = false) /\
  ((relevance_score_of (Ok (Some ("~" ++ String "1" "0%")%string)) == 1)%Q /\
   ge_0_8 (relevance_score_of (Ok (Some ("~" ++ String "1" "0%")%string)))
     = true).
Proof.
  split.
  - apply (proj1 score_of_reply "85%").
    + intros ch H. simpl in H.
      repeat (destruct H as [<-|H]; [split; discriminate|]). destruct H.
    + intros a b E.
      destruct a as [|a0 [|a1 [|a2 [|a3 a]]]]; try discriminate.
  - apply (proj2 score_of_reply "~" "0%").
    intros ch H. simpl in H.
    repeat (destruct H as [<-|H]; [repeat split; discriminate|]). destruct H.
Defined.

Lemma upper_app a b : upper (a ++ b) = (upper a ++ upper b)%string.
Proof.
  induction a as [|c a IH]; [reflexivity|].
  cbn [append upper]. rewrite IH. reflexivity.
Qed.

Lemma prefix_app sub b : String.prefix sub (sub ++ b) = true.
Proof.
  induction sub as [|c sub IH]; [destruct b; reflexivity|].
  cbn [append String.prefix].
  destruct (ascii_dec c c); [exact IH | congruence].
Qed.

Lemma contains_app sub a b : contains sub (a ++ sub ++ b) = true.
Proof.
  induction a as [|c a IH].
  - cbn [append]. destruct (sub ++ b)%string eqn:E;
      cbn [contains]; rewrite <- E, prefix_app; reflexivity.
  - cbn [append contains]. rewrite IH. apply orb_true_r.
Qed.

(** X21: the scope check is a substring test.  When the ordering call
    invokes no declared tool and the stripped answer of the classification
    contains the letters n, o in a row, in either case and inside any word,
    the planner returns the scope violation, whatever else the answer
    says. *)
Theorem scope_check_matches_substring c st n response answer a b x :
  selected_tool_order st = [] ->
  generate_with_tools c n = Ok response ->
  known_indices (resp_tool_calls response) = [] ->
  generate c (S n) = Ok (Some answer) ->
  In x ["no"; "No"; "nO"; "NO"] ->
  strip answer = (a ++ x ++ b)%string ->
  planner_node c st n = (Ok (out_of_scope st), S (S n)) /\
  should_continue_planner (out_of_scope st) = node_error /\
  error_message (out_of_scope st) =
    Some (out_of_scope_message (user_query st)).
Proof.
  intros E G K A X HS.
  assert (N : contains "NO" (upper (strip answer)) = true).
  { rewrite HS, !upper_app.
    replace (upper x) with "NO"
      by (simpl in X; destruct X as [<-|[<-|[<-|[<-|[]]]]]; reflexivity).
    apply contains_app. }
  split; [|split; reflexivity].
  unfold planner_node, determine_order.
  rewrite E, G, extract_tool_order_spec, K, A.
  cbn [first_occurrences bind strip_method]. rewrite N. reflexivity.
Qed.

Lemma scope_check_matches_substring_witness :
  planner_node
    (Example.primary_only
       [Example.invokes [];
        Example.says "Yes, it is about the annotations of orders."])
    (initial_state "q") 0
  = (Ok (out_of_scope (initial_state "q")), 2) /\
  should_continue_planner (out_of_scope (initial_state "q")) = node_error /\
  error_message (out_of_scope (initial_state "q")) =
    Some (out_of_scope_message (user_query (initial_state "q"))).
Proof.
  exact (scope_check_matches_substring
           (Example.primary_only
              [Example.invokes [];
               Example.says "Yes, it is about the annotations of orders."])
           (initial_state "q") 0
           {| resp_content := None; resp_tool_calls := [] |}
           "Yes, it is about the annotations of orders."
           "Yes, it is about the an" "tations of orders." "no"
           eq_refl eq_refl eq_refl eq_refl
           (or_introl eq_refl) ltac:(vm_compute; reflexivity)).
Defined.

(** ** Two complete runs *)




